(** * ShowTrackAI local development servers

    A shallow embedding of the two Python programs of the repository,

    - [serve-web.py]: the static server for the Flutter web build
      ([FlutterWebHandler], [serve_flutter_web]);
    - [start-test-server.py]: the geolocation test server with its mock
      API ([GeolocationTestHandler], [start_server]);

    and the properties their specification states about them.

    Python code that can raise is embedded in a state-and-exception monad
    [Py S]: a computation takes the state [S] (the handler's output
    buffers, or the process' trace) and returns the new state with either
    a value or the exception that escaped.  The state is kept when an
    exception escapes, so that "nothing was written" can be stated for
    the failing paths too. *)

From Stdlib Require Import String Ascii List ZArith Bool Lia.
From Stdlib Require Import Strings.Byte.
From Stdlib Require Import DecimalString.
From ExtLib Require Import Structures.Monad Structures.MonadExc
  Structures.MonadState.
Import ListNotations.
Import MonadNotation.

Set Implicit Arguments.

Local Open Scope string_scope.
Local Open Scope Z_scope.
Local Open Scope monad_scope.

(** ** Python exceptions *)

Module Exn.

(** The exception classes the two programs and their library calls can
    meet, with the parent each one has in Python's class hierarchy. *)
Inductive class :=
| BaseException | Exception
| SystemExit | KeyboardInterrupt
| TypeError | ValueError | UnicodeError | UnicodeDecodeError
| JSONDecodeError
| OSError | FileNotFoundError
| RuntimeError | RecursionError.

Definition parent (c : class) : option class :=
  match c with
  | BaseException => None
  | Exception | SystemExit | KeyboardInterrupt => Some BaseException
  | TypeError | ValueError | OSError | RuntimeError => Some Exception
  | UnicodeError | JSONDecodeError => Some ValueError
  | UnicodeDecodeError => Some UnicodeError
  | FileNotFoundError => Some OSError
  | RecursionError => Some RuntimeError
  end.

Definition class_eqb (c d : class) : bool :=
  match c, d with
  | BaseException, BaseException | Exception, Exception
  | SystemExit, SystemExit | KeyboardInterrupt, KeyboardInterrupt
  | TypeError, TypeError | ValueError, ValueError
  | UnicodeError, UnicodeError | UnicodeDecodeError, UnicodeDecodeError
  | JSONDecodeError, JSONDecodeError
  | OSError, OSError | FileNotFoundError, FileNotFoundError
  | RuntimeError, RuntimeError | RecursionError, RecursionError => true
  | _, _ => false
  end.

(** [issubclass c d]: [d] is [c] or one of its ancestors.  The
    hierarchy above is four levels deep. *)
Fixpoint issubclass_upto (depth : nat) (c d : class) : bool :=
  class_eqb c d ||
  match depth, parent c with
  | S k, Some p => issubclass_upto k p d
  | _, _ => false
  end.

Definition issubclass : class -> class -> bool := issubclass_upto 4.

(** A raised exception: its class, and for [SystemExit] the status
    passed to [sys.exit]. *)
Record t := Make { cls : class; status : Z }.

Definition of_class (c : class) : t := Make c 0.
Definition system_exit (code : Z) : t := Make SystemExit code.

End Exn.

Coercion Exn.of_class : Exn.class >-> Exn.t.

(** ** The monad of Python computations *)

Inductive result (A : Type) : Type :=
| Ok (a : A)
| Raise (e : Exn.t).
Arguments Ok {A} a.
Arguments Raise {A} e.

(** What a call into the standard library raises derives from
    [Exception]: [KeyboardInterrupt] and [SystemExit] come from the
    user and from the program itself. *)
Definition raises_Exception {A} (r : result A) : bool :=
  match r with
  | Ok _ => true
  | Raise e => Exn.issubclass (Exn.cls e) Exn.Exception
  end.

Definition Py (S A : Type) : Type := S -> result A * S.

Definition run {S A : Type} (c : Py S A) (s : S) : result A * S := c s.

Section PyMonad.
Variable S : Type.

Definition py_ret {A} (a : A) : Py S A := fun s => (Ok a, s).

Definition py_bind {A B} (c : Py S A) (k : A -> Py S B) : Py S B :=
  fun s =>
    match c s with
    | (Ok a, s') => k a s'
    | (Raise e, s') => (Raise e, s')
    end.

Definition py_raise {A} (e : Exn.t) : Py S A := fun s => (Raise e, s).

(** [catch] hands every exception to the handler; the [except] clause
    of Python, which filters by class, is [try_except] below. *)
Definition py_catch {A} (c : Py S A) (h : Exn.t -> Py S A) : Py S A :=
  fun s =>
    match c s with
    | (Ok a, s') => (Ok a, s')
    | (Raise e, s') => h e s'
    end.

#[global] Instance Monad_Py : Monad (Py S) :=
  {| ret := @py_ret; bind := @py_bind |}.

#[global] Instance MonadExc_Py : MonadExc Exn.t (Py S) :=
  {| raise := @py_raise; catch := @py_catch |}.

#[global] Instance MonadState_Py : MonadState S (Py S) :=
  {| get := fun s => (Ok s, s); put := fun s' _ => (Ok tt, s') |}.

(** [try: body  except c: handler]: the handler runs for an exception
    whose class is [c] or a subclass of it; any other exception goes
    on to the caller. *)
Definition try_except {A} (body : Py S A) (c : Exn.class)
    (handler : Py S A) : Py S A :=
  catch body
    (fun e => if Exn.issubclass (Exn.cls e) c then handler else raise e).

(** Lifting a library call that returns or raises. *)
Definition lift {A} (r : result A) : Py S A := fun s => (r, s).

(** A library call with one exception class: [None] raises it. *)
Definition or_raise {A} (c : Exn.class) (o : option A) : Py S A :=
  match o with
  | Some a => ret a
  | None => raise (Exn.of_class c)
  end.

End PyMonad.

(** ** Strings *)

Definition str_of_Z (z : Z) : string := NilZero.string_of_int (Z.to_int z).

Definition len (s : string) : Z := Z.of_nat (String.length s).

(** [s.endswith(suffix)] *)
Definition endswith (s suffix : string) : bool :=
  let n := String.length s in
  let m := String.length suffix in
  (m <=? n)%nat && String.eqb (substring (n - m) m s) suffix.

Definition ascii_lower (c : ascii) : ascii :=
  let n := nat_of_ascii c in
  if ((65 <=? n) && (n <=? 90))%nat then ascii_of_nat (n + 32) else c.

Fixpoint lower (s : string) : string :=
  match s with
  | EmptyString => EmptyString
  | String c s' => String (ascii_lower c) (lower s')
  end.

(** [a, b = s] on a string: Python iterates the characters of [s] and
    raises [ValueError] ("too many values to unpack", "not enough values
    to unpack") unless there are exactly two. *)
Definition unpack2 (s : string) : result (string * string) :=
  match s with
  | String a (String b EmptyString) =>
      Ok (String a EmptyString, String b EmptyString)
  | _ => Raise Exn.ValueError
  end.

(** ** Python values that travel through [json] *)

Set Warnings "-register-all".

(** A [dict] keeps its items in insertion order, so it is an association
    list.  A float literal of the source is kept as its decimal digits:
    [PyFloat 725 1] is [72.5]. *)
Inductive pyobj : Type :=
| PyNone
| PyBool (b : bool)
| PyInt (z : Z)
| PyFloat (digits : Z) (scale : nat)
| PyStr (s : string)
| PyList (items : list pyobj)
| PyDict (items : list (string * pyobj)).

(** [d[k]] / [d.get(k)] on the items of a dict. *)
Fixpoint dict_get (k : string) (items : list (string * pyobj))
    : option pyobj :=
  match items with
  | [] => None
  | (k', v) :: rest => if String.eqb k k' then Some v else dict_get k rest
  end.

(** How deep the lists and dicts of a value are nested: 0 for a scalar,
    1 for a list or a dict of scalars. *)
Fixpoint nesting (obj : pyobj) : nat :=
  match obj with
  | PyList items =>
      S ((fix each (l : list pyobj) : nat :=
            match l with
            | [] => O
            | x :: rest => Nat.max (nesting x) (each rest)
            end) items)
  | PyDict items =>
      S ((fix each (l : list (string * pyobj)) : nat :=
            match l with
            | [] => O
            | (_, v) :: rest => Nat.max (nesting v) (each rest)
            end) items)
  | _ => O
  end.

(** ** The file system, the clock and the host, as the programs meet
    them *)

Record File := { f_data : list byte; st_size : Z; st_mtime : Z }.

Record World := {
  (** [os.path.exists], [os.path.isdir], [os.path.isfile] *)
  path_exists : string -> bool;
  isdir : string -> bool;
  isfile : string -> bool;
  (** [os.listdir(path)]; [None] is [OSError] *)
  listdir : string -> option (list string);
  (** [open(path, 'rb')]; [None] is [OSError] *)
  open_rb : string -> option File;
  (** [open(path, 'r')] followed by [f.read()] *)
  read_text : string -> result string;
  (** [time.time()], in whole seconds *)
  time_time : Z;
  (** [os.chdir(path)]: [None] when the directory was entered, or the
      exception it raises ([NotADirectoryError], [PermissionError], ...) *)
  chdir_error : string -> option Exn.t;
  (** [socketserver.TCPServer((host, port), ...)] binds and listens:
      [None] when it did, or the exception it raises ([OSError] "Address
      already in use", ...) *)
  bind_error : string -> Z -> option Exn.t;
  (** [webbrowser.open(url)]: [True] when a browser was launched,
      [False] when none could be, or the exception the launch raises *)
  webbrowser_open : string -> result bool;
  (** [open] and [read] raise [OSError]s and [UnicodeDecodeError] *)
  read_text_raises : forall p, raises_Exception (read_text p) = true
}.

(** ** What the programs import

    The standard library is not part of the repository.  Its functions
    enter as the fields of [PyLib]; those that can raise return a
    [result] (or an [option] when there is one exception they raise). *)

Record ParseResult := {
  pr_scheme : string; pr_netloc : string; pr_path : string;
  pr_params : string; pr_query : string; pr_fragment : string }.

Record SplitResult := {
  sp_scheme : string; sp_netloc : string; sp_path : string;
  sp_query : string; sp_fragment : string }.

Class PyLib : Type := {
  (** [urllib.parse]; [None] is the [ValueError] of a malformed netloc *)
  urlparse : string -> option ParseResult;
  urlsplit : string -> option SplitResult;
  urlunsplit : SplitResult -> string;
  (** [int(s)] on a string; [None] is [ValueError] *)
  int_of_str : string -> option Z;
  (** [b.decode('utf-8')]; [None] is [UnicodeDecodeError] *)
  bytes_decode : list byte -> option string;
  (** [s.encode()] *)
  str_encode : string -> list byte;
  (** [json.loads(s)] *)
  json_loads : string -> result pyobj;
  (** [json.dumps(obj, indent=...)]: the text it returns, and the
      deepest nesting it serialises; for a value nested deeper the encoder
      runs into the recursion limit of the interpreter and raises
      [RecursionError] *)
  json_dumps : option nat -> pyobj -> string;
  dumps_limit : nat;
  (** [datetime]: a reading of the clock, [d.isoformat()] and
      [int(d.timestamp())] *)
  datetime : Type;
  isoformat : datetime -> string;
  timestamp : datetime -> Z;
  (** [os.path.join]; [os.path.dirname(__file__)] and
      [os.path.dirname(os.path.abspath(__file__))] of the running script *)
  path_join : string -> string -> string;
  script_dir : string;
  script_absdir : string;
  (** [http.server]: class attributes and helpers of the base handlers *)
  protocol_version : string;
  version_string : string;
  responses : Z -> option (string * string);
  error_page : Z -> string -> string -> string;
  error_content_type : string;
  date_time_string : Z -> string;
  translate_path : string -> string;
  filesystem_encoding : string;
  (** the page [list_directory] builds for a directory from its entries,
      encoded *)
  listing_page : World -> string -> list string -> list byte;
  (** [repr(s)] of a string *)
  repr : string -> string;
  (** [SimpleHTTPRequestHandler.guess_type(path)]: "Return value is a
      string of the form type/subtype" *)
  base_guess_type : string -> string;
  (** the comparison of [If-Modified-Since] with a file's [st_mtime]
      in [send_head]: [true] when the file is not newer *)
  not_modified_since : string -> Z -> bool;
  (** [json.loads] raises [JSONDecodeError], [RecursionError], ... *)
  json_loads_raises : forall s, raises_Exception (json_loads s) = true;
  (** the recursion limit is far above the nesting of the payloads the
      source writes out, which is 2 at most *)
  dumps_limit_shallow : (2 <=? dumps_limit)%nat = true
}.

(** [json.dumps(obj, indent=indent)] as a call that can raise. *)
Definition py_json_dumps {lib : PyLib} {S : Type} (indent : option nat)
    (obj : pyobj) : Py S string :=
  if (nesting obj <=? dumps_limit)%nat then ret (json_dumps indent obj)
  else raise (Exn.of_class Exn.RecursionError).

(** ** One request and the handler that serves it *)

Record Request := {
  command : string;
  path : string;
  headers : list (string * string);
  rfile : list byte }.

(** [self.headers[name]]: the first header with that name, compared
    without case; [None] when there is none. *)
Fixpoint headers_get (name : string) (hs : list (string * string))
    : option string :=
  match hs with
  | [] => None
  | (k, v) :: rest =>
      if String.eqb (lower k) (lower name) then Some v
      else headers_get name rest
  end.

(** [name in self.headers] *)
Definition headers_mem (name : string) (hs : list (string * string)) : bool :=
  match headers_get name hs with Some _ => true | None => false end.

(** [self.rfile.read(n)] on the buffered reader of the connection: up
    to [n] bytes, everything that arrives when [n] is -1, and
    [ValueError] ("read length must be non-negative or -1"), here
    [None], when [n] is below -1. *)
Definition rfile_read (n : Z) (data : list byte) : option (list byte) :=
  if n <? -1 then None
  else if n =? -1 then Some data
  else Some (firstn (Z.to_nat n) data).

(** A line of the header buffer: the status line, or a header field. *)
Inductive hline : Type :=
| StatusLine (version : string) (code : Z) (message : string)
| Field (keyword value : string).

(** What reaches the client on [self.wfile]: a flushed header block
    (closed by the blank line), or body bytes. *)
Inductive wire : Type :=
| Head (lines : list hline)
| Body (data : list byte).

(** The attributes of the handler that the methods below write or
    test: the header buffer, the output stream, and [request_version],
    which [parse_request] sets from the request line: the version the
    line names, or ["HTTP/0.9"] when it names none. *)
Record HState := {
  headers_buffer : list hline;
  wfile : list wire;
  request_version : string }.

(** The handler once [parse_request] has read a request line with this
    version. *)
Definition handler_at (version : string) : HState :=
  {| headers_buffer := []; wfile := []; request_version := version |}.

(** The handler of a request that carries [HTTP/1.1], as the requests
    of a browser do. *)
Definition fresh_handler : HState := handler_at "HTTP/1.1".

Definition buffer_append (l : hline) : Py HState unit :=
  modify (fun h => {| headers_buffer := headers_buffer h ++ [l];
                      wfile := wfile h;
                      request_version := request_version h |}) ;;
  ret tt.

Definition wfile_write (data : list byte) : Py HState unit :=
  modify (fun h => {| headers_buffer := headers_buffer h;
                      wfile := wfile h ++ [Body data];
                      request_version := request_version h |}) ;;
  ret tt.

(** [self.request_version != 'HTTP/0.9'] *)
Definition has_version : Py HState bool :=
  h <- get ;;
  ret (negb (String.eqb (request_version h) "HTTP/0.9")).

(** The methods a subclass of the base handler overrides in this
    repository; the base class calls them through [self]. *)
Class Hooks : Type := {
  self_end_headers : Py HState unit;
  self_guess_type : string -> Py HState string }.

(** ** The base classes of [http.server]

    [BaseHTTPRequestHandler] and [SimpleHTTPRequestHandler] as far as
    the two handlers of the repository run them, once [parse_request]
    has accepted the request line and the headers.  For a request that
    carries a version the library buffers a status line and header
    fields and flushes them at [end_headers]; for one that carries none
    (HTTP/0.9) [send_response_only], [send_header] and [end_headers] do
    nothing, and what reaches the client is the body alone.  Calls the
    library makes through [self] to an overridden method go through
    [Hooks].  [protocol_version] is the default HTTP/1.0, so a
    connection carries one request and [close_connection] is left
    out. *)

Module BaseHTTPRequestHandler.
Section Methods.
Context {lib : PyLib}.
Variable w : World.
Variable self : Request.

Definition send_response_only (code : Z) (message : option string)
    : Py HState unit :=
  let message :=
    match message with
    | Some m => m
    | None => match responses code with
              | Some (shortmsg, _) => shortmsg
              | None => ""
              end
    end in
  versioned <- has_version ;;
  if versioned
  then buffer_append (StatusLine protocol_version code message)
  else ret tt.

Definition send_header (keyword value : string) : Py HState unit :=
  versioned <- has_version ;;
  if versioned then buffer_append (Field keyword value) else ret tt.

Definition send_response (code : Z) (message : option string)
    : Py HState unit :=
  send_response_only code message ;;
  send_header "Server" version_string ;;
  send_header "Date" (date_time_string (time_time w)).

Definition flush_headers : Py HState unit :=
  h <- get ;;
  put {| headers_buffer := [];
         wfile := wfile h ++ [Head (headers_buffer h)];
         request_version := request_version h |}.

Definition end_headers : Py HState unit :=
  versioned <- has_version ;;
  if versioned then flush_headers else ret tt.

Definition no_body_status (code : Z) : bool :=
  (code =? 204) || (code =? 205) || (code =? 304).

Definition send_error {hooks : Hooks} (code : Z) (message : option string)
    : Py HState unit :=
  let '(shortmsg, longmsg) :=
    match responses code with
    | Some p => p
    | None => ("???", "???")
    end in
  let message := match message with Some m => m | None => shortmsg end in
  let explain := longmsg in
  send_response code (Some message) ;;
  send_header "Connection" "close" ;;
  let body :=
    if (200 <=? code) && negb (no_body_status code)
    then Some (str_encode (error_page code message explain))
    else None in
  match body with
  | Some b =>
      send_header "Content-Type" error_content_type ;;
      send_header "Content-Length" (str_of_Z (Z.of_nat (length b)))
  | None => ret tt
  end ;;
  self_end_headers ;;
  match body with
  | Some ((_ :: _) as b) =>
      if negb (String.eqb (command self) "HEAD") then wfile_write b
      else ret tt
  | _ => ret tt
  end.

(** [handle_one_request], once the request line and the headers are
    parsed: the method [do_<command>] of the class when it has one. *)
Definition handle_one_request {hooks : Hooks}
    (method : string -> option (Py HState unit)) : Py HState unit :=
  match method (command self) with
  | None =>
      send_error 501
        (Some ("Unsupported method (" ++ repr (command self) ++ ")"))
  | Some m => m
  end.

End Methods.
End BaseHTTPRequestHandler.

Module SimpleHTTPRequestHandler.
Import BaseHTTPRequestHandler.
Section Methods.
Context {lib : PyLib} {hooks : Hooks}.
Variable w : World.
Variable self : Request.

Definition guess_type (pathname : string) : Py HState string :=
  ret (base_guess_type pathname).

Definition list_directory (pathname : string) : Py HState (option (list byte)) :=
  match listdir w pathname with
  | None =>
      send_error w self 404 (Some "No permission to list directory") ;;
      ret None
  | Some names =>
      let encoded := listing_page w (path self) names in
      send_response w 200 None ;;
      send_header "Content-type"
        ("text/html; charset=" ++ filesystem_encoding) ;;
      send_header "Content-Length" (str_of_Z (Z.of_nat (length encoded))) ;;
      self_end_headers ;;
      ret (Some encoded)
  end.

(** The part of [send_head] that follows the directory handling: it
    asks [self.guess_type] first and opens the file after. *)
Definition send_file_head (pathname : string) : Py HState (option (list byte)) :=
  ctype <- self_guess_type pathname ;;
  if endswith pathname "/" then
    send_error w self 404 (Some "File not found") ;; ret None
  else
    match open_rb w pathname with
    | None => send_error w self 404 (Some "File not found") ;; ret None
    | Some f =>
        let ims := headers_get "If-Modified-Since" (headers self) in
        match ims with
        | Some since =>
            if negb (headers_mem "If-None-Match" (headers self))
               && not_modified_since since (st_mtime f)
            then send_response w 304 None ;; self_end_headers ;; ret None
            else
              send_response w 200 None ;;
              send_header "Content-type" ctype ;;
              send_header "Content-Length" (str_of_Z (st_size f)) ;;
              send_header "Last-Modified" (date_time_string (st_mtime f)) ;;
              self_end_headers ;;
              ret (Some (f_data f))
        | None =>
            send_response w 200 None ;;
            send_header "Content-type" ctype ;;
            send_header "Content-Length" (str_of_Z (st_size f)) ;;
            send_header "Last-Modified" (date_time_string (st_mtime f)) ;;
            self_end_headers ;;
            ret (Some (f_data f))
        end
    end.

Definition send_head : Py HState (option (list byte)) :=
  let pathname := translate_path (path self) in
  if isdir w pathname then
    parts <- or_raise Exn.ValueError (urlsplit (path self)) ;;
    if negb (endswith (sp_path parts) "/") then
      send_response w 301 None ;;
      send_header "Location"
        (urlunsplit {| sp_scheme := sp_scheme parts;
                       sp_netloc := sp_netloc parts;
                       sp_path := sp_path parts ++ "/";
                       sp_query := sp_query parts;
                       sp_fragment := sp_fragment parts |}) ;;
      send_header "Content-Length" "0" ;;
      self_end_headers ;;
      ret None
    else if isfile w (path_join pathname "index.html") then
      send_file_head (path_join pathname "index.html")
    else if isfile w (path_join pathname "index.htm") then
      send_file_head (path_join pathname "index.htm")
    else list_directory pathname
  else send_file_head pathname.

(** [shutil.copyfileobj] writes the file chunk by chunk and writes
    nothing for an empty file; the chunks are one [Body] here. *)
Definition copyfile (data : list byte) : Py HState unit :=
  match data with
  | [] => ret tt
  | _ => wfile_write data
  end.

Definition do_GET : Py HState unit :=
  f <- send_head ;;
  match f with
  | Some data => copyfile data
  | None => ret tt
  end.

Definition do_HEAD : Py HState unit :=
  f <- send_head ;;
  ret tt.

End Methods.
End SimpleHTTPRequestHandler.

(** ** [serve-web.py] *)

Module FlutterWebHandler.
Section Methods.
Context {lib : PyLib}.
Variable w : World.
Variable self : Request.

Definition end_headers : Py HState unit :=
  BaseHTTPRequestHandler.send_header
    "Cache-Control" "no-cache, no-store, must-revalidate" ;;
  BaseHTTPRequestHandler.send_header "Pragma" "no-cache" ;;
  BaseHTTPRequestHandler.send_header "Expires" "0" ;;
  BaseHTTPRequestHandler.end_headers.

(** The base [guess_type] returns one string; the assignment
    [mime_type, _ = super().guess_type(path)] unpacks it. *)
Definition guess_type (pathname : string) : Py HState string :=
  base <- SimpleHTTPRequestHandler.guess_type pathname ;;
  '(mime_type, _) <- lift (unpack2 base) ;;
  if endswith pathname ".js" then ret "application/javascript"
  else if endswith pathname ".wasm" then ret "application/wasm"
  else if endswith pathname ".json" then ret "application/json"
  else ret mime_type.

#[export] Instance hooks : Hooks :=
  {| self_end_headers := end_headers; self_guess_type := guess_type |}.

(** [do_GET] and [do_HEAD] are inherited; they run with the two
    methods above in place of the base ones. *)
Definition do_GET : Py HState unit :=
  SimpleHTTPRequestHandler.do_GET (hooks := hooks) w self.

Definition do_HEAD : Py HState unit :=
  SimpleHTTPRequestHandler.do_HEAD (hooks := hooks) w self.

(** [getattr(self, 'do_' + command)] *)
Definition method (name : string) : option (Py HState unit) :=
  if String.eqb name "GET" then Some do_GET
  else if String.eqb name "HEAD" then Some do_HEAD
  else None.

End Methods.
End FlutterWebHandler.

(** ** [start-test-server.py] *)

Definition PORT : Z := 8888.
Definition HOST : string := "localhost".

Module GeolocationTestHandler.
Import BaseHTTPRequestHandler.
Section Methods.
Context {lib : PyLib}.
Variable w : World.
(** What [datetime.now()] returns while this request is served. *)
Variable now : datetime.
Variable self : Request.

Definition end_headers : Py HState unit :=
  send_header "Access-Control-Allow-Origin" "*" ;;
  send_header "Access-Control-Allow-Methods" "GET, POST, OPTIONS" ;;
  send_header "Access-Control-Allow-Headers" "Content-Type" ;;
  BaseHTTPRequestHandler.end_headers.

#[export] Instance hooks : Hooks :=
  {| self_end_headers := end_headers;
     self_guess_type := SimpleHTTPRequestHandler.guess_type |}.

Definition send_json_response (data : pyobj) : Py HState unit :=
  response <- py_json_dumps (Some 2%nat) data ;;
  send_response w 200 None ;;
  send_header "Content-Type" "application/json" ;;
  send_header "Access-Control-Allow-Origin" "*" ;;
  send_header "Content-Length" (str_of_Z (len response)) ;;
  end_headers ;;
  wfile_write (str_encode response).

Definition send_error_response (message : string) : Py HState unit :=
  response <- py_json_dumps None (PyDict [("error", PyStr message)]) ;;
  send_response w 400 None ;;
  send_header "Content-Type" "application/json" ;;
  send_header "Access-Control-Allow-Origin" "*" ;;
  end_headers ;;
  wfile_write (str_encode response).

Definition serve_test_interface : Py HState unit :=
  try_except
    (content <- lift (read_text w "geolocation-test-server.html") ;;
     send_response w 200 None ;;
     send_header "Content-Type" "text/html" ;;
     send_header "Content-Length" (str_of_Z (len content)) ;;
     end_headers ;;
     wfile_write (str_encode content))
    Exn.FileNotFoundError
    (send_error w self 404 (Some "Test interface not found")).

Definition weather_data : pyobj :=
  PyDict [
    ("temperature", PyFloat 725 1);
    ("temperatureCelsius", PyFloat 225 1);
    ("condition", PyStr "Clear");
    ("description", PyStr "Clear sky with light breeze");
    ("humidity", PyInt 65);
    ("windSpeed", PyFloat 85 1);
    ("windDirection", PyStr "NW");
    ("pressure", PyInt 1013);
    ("visibility", PyInt 10);
    ("feelsLike", PyFloat 702 1);
    ("uvIndex", PyInt 5);
    ("sunrise", PyStr "06:45");
    ("sunset", PyStr "19:30");
    ("timestamp", PyStr (isoformat now)) ].

Definition serve_mock_weather : Py HState unit :=
  send_json_response weather_data.

Definition location_data : pyobj :=
  PyDict [
    ("verified", PyBool true);
    ("address", PyStr "1234 Farm Road, Ames, IA 50011");
    ("locationType", PyStr "Agricultural Facility");
    ("nearbyLandmarks",
       PyList [ PyStr "Iowa State University Farm";
                PyStr "Agricultural Research Station";
                PyStr "FFA Training Center" ]);
    ("timestamp", PyStr (isoformat now)) ].

Definition serve_mock_location : Py HState unit :=
  send_json_response location_data.

Definition status : pyobj :=
  PyDict [
    ("system", PyStr "operational");
    ("database", PyStr "connected");
    ("n8n", PyStr "ready");
    ("supabase", PyStr "connected");
    ("entriesCount", PyInt 42);
    ("lastEntry", PyStr (isoformat now)) ].

Definition serve_journal_status : Py HState unit :=
  send_json_response status.

Definition do_GET : Py HState unit :=
  parsed_path <- or_raise Exn.ValueError (urlparse (path self)) ;;
  if String.eqb (pr_path parsed_path) "/"
     || String.eqb (pr_path parsed_path) "/test"
  then serve_test_interface
  else if String.eqb (pr_path parsed_path) "/api/weather"
  then serve_mock_weather
  else if String.eqb (pr_path parsed_path) "/api/location"
  then serve_mock_location
  else if String.eqb (pr_path parsed_path) "/api/journal"
  then serve_journal_status
  else SimpleHTTPRequestHandler.do_GET (hooks := hooks) w self.

(** [int(self.headers['Content-Length'])]: a missing header is [None],
    and [int(None)] raises [TypeError]. *)
Definition content_length_of (hs : list (string * string)) : Py HState Z :=
  match headers_get "Content-Length" hs with
  | None => raise (Exn.of_class Exn.TypeError)
  | Some v => or_raise Exn.ValueError (int_of_str v)
  end.

Definition journal_response (journal_data : pyobj) : pyobj :=
  PyDict [
    ("success", PyBool true);
    ("id", PyStr ("journal_" ++ str_of_Z (timestamp now)));
    ("message", PyStr "Journal entry created successfully");
    ("data", journal_data) ].

Definition do_POST : Py HState unit :=
  if String.eqb (path self) "/api/journal/create" then
    content_length <- content_length_of (headers self) ;;
    post_data <- or_raise Exn.ValueError
                   (rfile_read content_length (rfile self)) ;;
    try_except
      (text <- or_raise Exn.UnicodeDecodeError (bytes_decode post_data) ;;
       journal_data <- lift (json_loads text) ;;
       send_json_response (journal_response journal_data))
      Exn.JSONDecodeError
      (send_error_response "Invalid JSON data")
  else ret tt.

(** [do_HEAD] is inherited. *)
Definition do_HEAD : Py HState unit :=
  SimpleHTTPRequestHandler.do_HEAD (hooks := hooks) w self.

(** [getattr(self, 'do_' + command)] *)
Definition method (name : string) : option (Py HState unit) :=
  if String.eqb name "GET" then Some do_GET
  else if String.eqb name "POST" then Some do_POST
  else if String.eqb name "HEAD" then Some do_HEAD
  else None.

End Methods.
End GeolocationTestHandler.

(** ** The process: [socketserver] and the two entry points

    A run of either program is the trace of what it does to its
    environment.  [serve_forever] does not return by itself: a run is
    the connections that arrive, one after the other, and then the
    [KeyboardInterrupt] of Ctrl+C. *)

Inductive action : Type :=
| Print (line : string)
| Chdir (dir : string)
| Bind (host : string) (port : Z)
| ServerClose
| OpenBrowser (url : string) (launched : bool)
| Reply (sent : list wire)
| HandleError (e : Exn.t).

Definition Process : Type := list action.

Definition emit (a : action) : Py Process unit :=
  modify (fun t => (t ++ [a])%list) ;; ret tt.

Definition print (line : string) : Py Process unit := emit (Print line).

(** [os.chdir(path)] *)
Definition os_chdir (w : World) (dir : string) : Py Process unit :=
  match chdir_error w dir with
  | Some e => raise e
  | None => emit (Chdir dir)
  end.

(** [sys.exit(code)] *)
Definition sys_exit {A} (code : Z) : Py Process A :=
  raise (Exn.system_exit code).

(** [try: body  finally: cleanup] *)
Definition try_finally {S A} (body : Py S A) (cleanup : Py S unit) : Py S A :=
  fun s =>
    match body s with
    | (r, s') =>
        match cleanup s' with
        | (Ok _, s'') => (r, s'')
        | (Raise e, s'') => (Raise e, s'')
        end
    end.

(** The newline the source writes [\n]. *)
Definition nl : string := String (ascii_of_nat 10) "".

Fixpoint str_repeat (s : string) (n : nat) : string :=
  match n with
  | O => ""
  | S k => s ++ str_repeat s k
  end.

Module socketserver.
Section Server.
Context {lib : PyLib}.

(** A connection: the file system and the clock while it is served, and
    the request it carries, on a request line that names HTTP/1.1. *)
Record Connection := {
  conn_world : World;
  conn_now : datetime;
  conn_request : Request }.

(** [_handle_request_noblock]: a fresh handler serves the connection;
    an exception that is an [Exception] is reported by [handle_error]
    and the loop goes on, any other one goes on to the caller. *)
Definition process_request (handle : Connection -> Py HState unit)
    (c : Connection) : Py Process unit :=
  let '(r, h) := run (handle c) fresh_handler in
  emit (Reply (wfile h)) ;;
  match r with
  | Ok _ => ret tt
  | Raise e =>
      if Exn.issubclass (Exn.cls e) Exn.Exception
      then emit (HandleError e)
      else raise e
  end.

Fixpoint serve_forever (handle : Connection -> Py HState unit)
    (arriving : list Connection) : Py Process unit :=
  match arriving with
  | [] => raise (Exn.of_class Exn.KeyboardInterrupt)
  | c :: rest => process_request handle c ;; serve_forever handle rest
  end.

(** [with socketserver.TCPServer((host, port), Handler) as httpd: body]:
    the constructor binds the address and listens, or raises; the body
    runs with the server, which is closed when the body is left. *)
Definition with_TCPServer {A} (w : World) (host : string) (port : Z)
    (body : Py Process A) : Py Process A :=
  match bind_error w host port with
  | Some e => raise e
  | None =>
      emit (Bind host port) ;;
      try_finally body (emit ServerClose)
  end.

End Server.
End socketserver.

Section EntryPoints.
Import socketserver.
Context {lib : PyLib}.

Definition FlutterWebHandler_handle (c : Connection) : Py HState unit :=
  BaseHTTPRequestHandler.handle_one_request
    (hooks := FlutterWebHandler.hooks)
    (conn_world c) (conn_request c)
    (FlutterWebHandler.method (conn_world c) (conn_request c)).

Definition GeolocationTestHandler_handle (c : Connection) : Py HState unit :=
  BaseHTTPRequestHandler.handle_one_request
    (hooks := GeolocationTestHandler.hooks)
    (conn_world c) (conn_request c)
    (GeolocationTestHandler.method
       (conn_world c) (conn_now c) (conn_request c)).

(** [serve-web.py]: [w] is the file system and the host at startup. *)
Definition serve_flutter_web (w : World) (arriving : list Connection)
    : Py Process unit :=
  let web_dir := path_join (path_join script_dir "build") "web" in
  (if negb (path_exists w web_dir) then
     print ("ERROR: Web build directory not found: " ++ web_dir) ;;
     print "Please run 'flutter build web' first" ;;
     sys_exit 1
   else ret tt) ;;
  os_chdir w web_dir ;;
  print ("Serving from: " ++ web_dir) ;;
  let PORT := 8087 in
  with_TCPServer w "" PORT
    (print ("🚀 Flutter web app serving at http://localhost:"
            ++ str_of_Z PORT) ;;
     print "Press Ctrl+C to stop the server" ;;
     try_except (serve_forever FlutterWebHandler_handle arriving)
       Exn.KeyboardInterrupt
       (print (nl ++ "👋 Server stopped"))).

(** [start-test-server.py]: [w] is the file system and the host at
    startup.  What [webbrowser.open] returns is discarded; the trace
    keeps it. *)
Definition start_server (w : World) (arriving : list Connection)
    : Py Process unit :=
  let url := "http://" ++ HOST ++ ":" ++ str_of_Z PORT in
  print (str_repeat "=" 60) ;;
  print "🚀 ShowTrackAI Geolocation Test Server" ;;
  print (str_repeat "=" 60) ;;
  print (nl ++ "📍 Starting server on " ++ url) ;;
  print (nl ++ "🧪 Available endpoints:") ;;
  print ("   • " ++ url ++ "/ - Main test interface") ;;
  print ("   • " ++ url ++ "/api/weather - Mock weather data") ;;
  print ("   • " ++ url ++ "/api/location - Mock location data") ;;
  print ("   • " ++ url ++ "/api/journal - Journal status") ;;
  print (nl ++ "⚠️  Note: For production geolocation, HTTPS is required.") ;;
  print "    This server is for local testing only." ;;
  print (nl ++ "🛑 Press Ctrl+C to stop the server") ;;
  print (str_repeat "=" 60) ;;
  os_chdir w script_absdir ;;
  with_TCPServer w HOST PORT
    (launched <- lift (webbrowser_open w url) ;;
     emit (OpenBrowser url launched) ;;
     try_except (serve_forever GeolocationTestHandler_handle arriving)
       Exn.KeyboardInterrupt
       (print (nl ++ nl ++ "🛑 Server stopped by user"))).

(** The status the interpreter exits with: 0 at the end of the script,
    the argument of [sys.exit], 1 for any other exception. *)
Definition exit_status {A} (r : result A) : Z :=
  match r with
  | Ok _ => 0
  | Raise e =>
      match Exn.cls e with
      | Exn.SystemExit => Exn.status e
      | _ => 1
      end
  end.

End EntryPoints.

(** ** The vocabulary of the properties *)

(** [keeps I E c]: started in a state that satisfies [I], the
    computation [c] ends in a state that satisfies [I], whether it
    returns or raises, and an exception it raises satisfies [E]. *)
Definition keeps {S A : Type} (I : S -> Prop) (E : Exn.t -> Prop)
    (c : Py S A) : Prop :=
  forall s, I s ->
    I (snd (c s)) /\
    match fst (c s) with
    | Ok _ => True
    | Raise e => E e
    end.

(** Every header block that was flushed satisfies [ok]. *)
Definition every_head (ok : list hline -> Prop) (sent : list wire) : Prop :=
  Forall (fun x => match x with
                   | Head lines => ok lines
                   | Body _ => True
                   end) sent.

(** The same of what a handler has written so far. *)
Definition sealed (ok : list hline -> Prop) (h : HState) : Prop :=
  every_head ok (wfile h).

(** The header blocks of a reply, in the order they were sent. *)
Fixpoint heads (sent : list wire) : list (list hline) :=
  match sent with
  | [] => []
  | Head lines :: rest => lines :: heads rest
  | Body _ :: rest => heads rest
  end.

(** Derives from [Exception]: [socketserver] reports it and goes on. *)
Definition is_Exception (e : Exn.t) : Prop :=
  Exn.issubclass (Exn.cls e) Exn.Exception = true.

(** The fields [FlutterWebHandler.end_headers] adds. *)
Definition no_cache_fields : list hline :=
  [ Field "Cache-Control" "no-cache, no-store, must-revalidate";
    Field "Pragma" "no-cache";
    Field "Expires" "0" ].

(** The three fields close the block: nothing is set after them. *)
Definition no_cache_last (lines : list hline) : Prop :=
  exists before, lines = (before ++ no_cache_fields)%list.

(** The fields [GeolocationTestHandler.end_headers] adds. *)
Definition cors_fields : list hline :=
  [ Field "Access-Control-Allow-Origin" "*";
    Field "Access-Control-Allow-Methods" "GET, POST, OPTIONS";
    Field "Access-Control-Allow-Headers" "Content-Type" ].

(** The block carries the three fields. *)
Definition carries_cors (lines : list hline) : Prop :=
  In (Field "Access-Control-Allow-Origin" "*") lines /\
  In (Field "Access-Control-Allow-Methods" "GET, POST, OPTIONS") lines /\
  In (Field "Access-Control-Allow-Headers" "Content-Type") lines.

(** The one path [do_POST] knows. *)
Definition create_path : string := "/api/journal/create".

(** The reason phrase [send_response] takes from the table of the
    library when it is given none. *)
Definition reason {lib : PyLib} (code : Z) : string :=
  match responses code with
  | Some (shortmsg, _) => shortmsg
  | None => ""
  end.

(** The lines every response starts with. *)
Definition response_start {lib : PyLib} (w : World) (code : Z) : list hline :=
  [ StatusLine protocol_version code (reason code);
    Field "Server" version_string;
    Field "Date" (date_time_string (time_time w)) ].

(** The 200 response that carries [data] as JSON. *)
Definition json_reply {lib : PyLib} (w : World) (data : pyobj) : list wire :=
  let text := json_dumps (Some 2%nat) data in
  [ Head (response_start w 200
          ++ [ Field "Content-Type" "application/json";
               Field "Access-Control-Allow-Origin" "*";
               Field "Content-Length" (str_of_Z (len text)) ]
          ++ cors_fields);
    Body (str_encode text) ].

(** The 400 response with its [error] message. *)
Definition error_reply {lib : PyLib} (w : World) (message : string)
    : list wire :=
  let text := json_dumps None (PyDict [("error", PyStr message)]) in
  [ Head (response_start w 400
          ++ [ Field "Content-Type" "application/json";
               Field "Access-Control-Allow-Origin" "*" ]
          ++ cors_fields);
    Body (str_encode text) ].

(** The routes of the specification, in its words: an exact match on
    the path, tried in this order, and static files for the rest. *)
Inductive route : Type :=
| TestInterface | MockWeather | MockLocation | JournalStatus | StaticFile.

(** The table of the specification, in its priority order. *)
Definition route_table : list (string * route) :=
  [ ("/", TestInterface);
    ("/test", TestInterface);
    ("/api/weather", MockWeather);
    ("/api/location", MockLocation);
    ("/api/journal", JournalStatus) ].

(** The route of the first entry whose path is exactly [p]; static
    files when there is none. *)
Fixpoint first_match (p : string) (table : list (string * route)) : route :=
  match table with
  | [] => StaticFile
  | (q, r) :: rest => if String.eqb p q then r else first_match p rest
  end.

(** What the specification has each route do. *)
Definition serve_route {lib : PyLib} (w : World) (now : datetime)
    (self : Request) (r : route) : Py HState unit :=
  match r with
  | TestInterface => GeolocationTestHandler.serve_test_interface w self
  | MockWeather => GeolocationTestHandler.serve_mock_weather w now
  | MockLocation => GeolocationTestHandler.serve_mock_location w now
  | JournalStatus => GeolocationTestHandler.serve_journal_status w now
  | StaticFile =>
      SimpleHTTPRequestHandler.do_GET
        (hooks := GeolocationTestHandler.hooks) w self
  end.

(** The 200 response that carries the test page. *)
Definition html_reply {lib : PyLib} (w : World) (content : string)
    : list wire :=
  [ Head (response_start w 200
          ++ [ Field "Content-Type" "text/html";
               Field "Content-Length" (str_of_Z (len content)) ]
          ++ cors_fields);
    Body (str_encode content) ].

(** What one connection adds to the trace: the reply, and the report
    of [handle_error] when the handler raised. *)
Definition connection_trace {lib : PyLib}
    (handle : socketserver.Connection -> Py HState unit)
    (c : socketserver.Connection) : list action :=
  let '(r, h) := run (handle c) fresh_handler in
  Reply (wfile h) ::
  match r with
  | Ok _ => []
  | Raise e => [HandleError e]
  end.

(** The build directory [serve-web.py] looks for. *)
Definition web_dir {lib : PyLib} : string :=
  path_join (path_join script_dir "build") "web".

(** No listening socket was bound in the trace. *)
Definition never_binds (trace : Process) : Prop :=
  Forall (fun a => match a with
                   | Bind _ _ => False
                   | _ => True
                   end) trace.

(** The lines [start_server] prints before it binds. *)
Definition banner : list action :=
  let url := "http://" ++ HOST ++ ":" ++ str_of_Z PORT in
  [ Print (str_repeat "=" 60);
    Print "🚀 ShowTrackAI Geolocation Test Server";
    Print (str_repeat "=" 60);
    Print (nl ++ "📍 Starting server on " ++ url);
    Print (nl ++ "🧪 Available endpoints:");
    Print ("   • " ++ url ++ "/ - Main test interface");
    Print ("   • " ++ url ++ "/api/weather - Mock weather data");
    Print ("   • " ++ url ++ "/api/location - Mock location data");
    Print ("   • " ++ url ++ "/api/journal - Journal status");
    Print (nl ++ "⚠️  Note: For production geolocation, HTTPS is required.");
    Print "    This server is for local testing only.";
    Print (nl ++ "🛑 Press Ctrl+C to stop the server");
    Print (str_repeat "=" 60) ].

(** ** The stages of a reply

    [hoare P c Q E]: started in a state that satisfies [P], the
    computation [c] returns [a] in a state that satisfies [Q a], or
    raises [e] in a state that satisfies [E e]. *)
Definition hoare {S A : Type} (P : S -> Prop) (c : Py S A)
    (Q : A -> S -> Prop) (E : Exn.t -> S -> Prop) : Prop :=
  forall s, P s ->
    match c s with
    | (Ok a, s') => Q a s'
    | (Raise e, s') => E e s'
    end.

(** Nothing is buffered and nothing was sent for the request, whose
    request line carried [version]. *)
Definition idle_at (version : string) (h : HState) : Prop :=
  h = handler_at version.

(** Nothing was sent yet; lines may wait in the buffer, for a request
    that carries a version. *)
Definition buffering (h : HState) : Prop :=
  wfile h = [] /\ request_version h <> "HTTP/0.9".

(** One header block was sent, the buffer is empty again. *)
Definition head_sent (h : HState) : Prop :=
  headers_buffer h = [] /\ exists lines, wfile h = [Head lines].

(** No reply, a header block alone, or a header block and one body. *)
Definition reply_shape (sent : list wire) : bool :=
  match sent with
  | [] | [Head _] | [Head _; Body _] => true
  | _ => false
  end.

(** The handler is done with the request: the buffer is empty and what
    was sent has the shape of one reply at most. *)
Definition complete (h : HState) : Prop :=
  headers_buffer h = [] /\ reply_shape (wfile h) = true.

(** [complete], and no body when the request is a HEAD. *)
Definition answered (self : Request) (h : HState) : Prop :=
  complete h /\ (command self = "HEAD" -> wfile h <> [] -> head_sent h).

(** What [send_head] and [list_directory] leave: the header block of a
    file that is still to be copied, or a finished answer. *)
Definition head_or_answer (self : Request) (r : option (list byte))
    (h : HState) : Prop :=
  match r with
  | Some _ => head_sent h
  | None => answered self h
  end.

(** No body bytes were sent. *)
Definition no_body (sent : list wire) : Prop :=
  Forall (fun x => match x with
                   | Head _ => True
                   | Body _ => False
                   end) sent.

(** [complete], and no body bytes when the request is a HEAD. *)
Definition served (self : Request) (h : HState) : Prop :=
  complete h /\ (command self = "HEAD" -> no_body (wfile h)).

(** Nothing was sent, or one header block that satisfies [ok], alone
    or followed by one body: no reply goes without its header block, and
    the block of every reply satisfies [ok]. *)
Definition reply_with (ok : list hline -> Prop) (sent : list wire) : Prop :=
  match sent with
  | [] => True
  | [Head lines] | [Head lines; Body _] => ok lines
  | _ => False
  end.

(** What a handler leaves behind for one request: a reply of the right
    shape when it returns, and nothing at all when it raises. *)
Definition all_or_nothing (r : result unit * HState) : Prop :=
  match r with
  | (Ok _, h) => complete h
  | (Raise _, h) => h = fresh_handler
  end.

(** The values of the fields named [keyword] in a header block, in
    their order; field names are compared without case, as HTTP does. *)
Fixpoint field_values (keyword : string) (lines : list hline) : list string :=
  match lines with
  | [] => []
  | Field k v :: rest =>
      if String.eqb (lower k) (lower keyword)
      then v :: field_values keyword rest
      else field_values keyword rest
  | StatusLine _ _ _ :: rest => field_values keyword rest
  end.

(** The status codes and reason phrases of a header block. *)
Fixpoint status_lines (lines : list hline) : list (Z * string) :=
  match lines with
  | [] => []
  | StatusLine _ code message :: rest => (code, message) :: status_lines rest
  | Field _ _ :: rest => status_lines rest
  end.

(** The request [self] with [data] on its input stream. *)
Definition with_rfile (self : Request) (data : list byte) : Request :=
  {| command := command self; path := path self;
     headers := headers self; rfile := data |}.

(** The items of a [dict]; none for any other value. *)
Definition items_of (obj : pyobj) : list (string * pyobj) :=
  match obj with
  | PyDict items => items
  | _ => []
  end.

(** The reply that carries the file [f] found at [pathname] by the
    static fallback of the mock API server. *)
Definition file_reply {lib : PyLib} (w : World) (pathname : string)
    (f : File) : list wire :=
  Head (response_start w 200
        ++ [ Field "Content-type" (base_guess_type pathname);
             Field "Content-Length" (str_of_Z (st_size f));
             Field "Last-Modified" (date_time_string (st_mtime f)) ]
        ++ cors_fields)
  :: match f_data f with
     | [] => []
     | data => [Body data]
     end.

(** ** A concrete library and concrete worlds

    Stand-ins for the imported functions, small enough to evaluate:
    they fix one behaviour for each field of [PyLib] and serve for the
    examples on concrete requests.  As in an interpreter whose decoder
    runs in C and whose encoder, asked to indent, runs in Python under
    the recursion limit of 1000, [json.loads] here accepts lists nested
    deeper than [json.dumps] serialises. *)

Module Sample.

Definition dq : string := String (ascii_of_nat 34) "".

(** The part of [s] before the first character that satisfies [stop],
    and the rest after that character. *)
Fixpoint split_at (stop : ascii -> bool) (s : string) : string * string :=
  match s with
  | EmptyString => ("", "")
  | String c s' =>
      if stop c then ("", s')
      else let '(a, b) := split_at stop s' in (String c a, b)
  end.

Definition is_query_mark (c : ascii) : bool :=
  Ascii.eqb c "?"%char || Ascii.eqb c "#"%char.

Definition parse_url (url : string) : option ParseResult :=
  let '(p, q) := split_at is_query_mark url in
  Some {| pr_scheme := ""; pr_netloc := ""; pr_path := p;
          pr_params := ""; pr_query := q; pr_fragment := "" |}.

Definition split_url (url : string) : option SplitResult :=
  let '(p, q) := split_at is_query_mark url in
  Some {| sp_scheme := ""; sp_netloc := ""; sp_path := p;
          sp_query := q; sp_fragment := "" |}.

Definition unsplit_url (parts : SplitResult) : string :=
  if String.eqb (sp_query parts) "" then sp_path parts
  else sp_path parts ++ "?" ++ sp_query parts.

Definition digit_of (c : ascii) : option Z :=
  let n := nat_of_ascii c in
  if ((48 <=? n) && (n <=? 57))%nat then Some (Z.of_nat (n - 48)) else None.

Fixpoint digits_from (acc : Z) (s : string) : option Z :=
  match s with
  | EmptyString => Some acc
  | String c s' =>
      match digit_of c with
      | Some d => digits_from (10 * acc + d) s'
      | None => None
      end
  end.

(** A decimal integer, with a minus sign before it or without. *)
Definition parse_int (s : string) : option Z :=
  match s with
  | EmptyString => None
  | String c digits =>
      if Ascii.eqb c "-"%char then
        match digits with
        | EmptyString => None
        | _ => option_map Z.opp (digits_from 0 digits)
        end
      else digits_from 0 s
  end.

Definition is_ascii_byte (b : byte) : bool := (Byte.to_nat b <? 128)%nat.

Definition decode_ascii (data : list byte) : option string :=
  if forallb is_ascii_byte data then Some (string_of_list_byte data)
  else None.

(** The opening brackets [s] starts with, counted, and what follows
    them. *)
Fixpoint strip_open (s : string) : nat * string :=
  match s with
  | String c s' =>
      if Ascii.eqb c "["%char
      then let '(n, r) := strip_open s' in (S n, r)
      else (O, s)
  | EmptyString => (O, s)
  end.

(** [s] is [n] closing brackets and nothing else. *)
Fixpoint all_close (n : nat) (s : string) : bool :=
  match n, s with
  | O, EmptyString => true
  | S k, String c s' => Ascii.eqb c "]"%char && all_close k s'
  | _, _ => false
  end.

(** An empty list inside [n] lists. *)
Fixpoint lists_in (n : nat) : pyobj :=
  match n with
  | O => PyList []
  | S k => PyList [lists_in k]
  end.

(** The documents this parser knows: a few scalars, the empty object,
    and empty lists nested to any depth. *)
Definition known_json (text : string) : option pyobj :=
  if String.eqb text "{}" then Some (PyDict [])
  else if String.eqb text "null" then Some PyNone
  else if String.eqb text "true" then Some (PyBool true)
  else if String.eqb text "false" then Some (PyBool false)
  else
    let '(n, r) := strip_open text in
    if (1 <=? n)%nat && all_close n r then Some (lists_in (n - 1))
    else None.

Definition loads (text : string) : result pyobj :=
  match known_json text with
  | Some v => Ok v
  | None => Raise Exn.JSONDecodeError
  end.

Definition loads_raises (text : string)
    : raises_Exception (loads text) = true :=
  match known_json text as o
    return raises_Exception
             (match o with
              | Some v => Ok v
              | None => Raise (Exn.of_class Exn.JSONDecodeError)
              end) = true
  with
  | Some _ => eq_refl
  | None => eq_refl
  end.

Fixpoint dumps (obj : pyobj) : string :=
  match obj with
  | PyNone => "null"
  | PyBool true => "true"
  | PyBool false => "false"
  | PyInt z => str_of_Z z
  | PyFloat d k => str_of_Z d ++ "e-" ++ str_of_Z (Z.of_nat k)
  | PyStr s => dq ++ s ++ dq
  | PyList items =>
      "[" ++ (fix each (l : list pyobj) : string :=
                match l with
                | [] => ""
                | [x] => dumps x
                | x :: rest => dumps x ++ ", " ++ each rest
                end) items ++ "]"
  | PyDict items =>
      "{" ++ (fix each (l : list (string * pyobj)) : string :=
                match l with
                | [] => ""
                | [(k, v)] => dq ++ k ++ dq ++ ": " ++ dumps v
                | (k, v) :: rest =>
                    dq ++ k ++ dq ++ ": " ++ dumps v ++ ", " ++ each rest
                end) items ++ "}"
  end.

Definition reason_table (code : Z) : option (string * string) :=
  if code =? 200 then Some ("OK", "Request fulfilled, document follows")
  else if code =? 301
  then Some ("Moved Permanently", "Object moved permanently -- see URI list")
  else if code =? 304
  then Some ("Not Modified", "Document has not changed since given time")
  else if code =? 400
  then Some ("Bad Request", "Bad request syntax or unsupported method")
  else if code =? 404
  then Some ("Not Found", "Nothing matches the given URI")
  else if code =? 501
  then Some ("Not Implemented", "Server does not support this operation")
  else None.

Definition guess_by_suffix (path : string) : string :=
  if endswith path ".js" then "text/javascript"
  else if endswith path ".json" then "application/json"
  else if endswith path ".wasm" then "application/wasm"
  else if endswith path ".html" then "text/html"
  else "application/octet-stream".

#[export] Instance lib : PyLib := {|
  urlparse := parse_url;
  urlsplit := split_url;
  urlunsplit := unsplit_url;
  int_of_str := parse_int;
  bytes_decode := decode_ascii;
  str_encode := list_byte_of_string;
  json_loads := loads;
  json_dumps := fun _ => dumps;
  dumps_limit := 990;
  datetime := Z;
  isoformat := str_of_Z;
  timestamp := fun d => d;
  path_join := fun a b => a ++ "/" ++ b;
  script_dir := ".";
  script_absdir := "/srv/showtrackai";
  protocol_version := "HTTP/1.0";
  version_string := "SimpleHTTP/0.6 Python/3.12.3";
  responses := reason_table;
  error_page := fun code message explain =>
    str_of_Z code ++ " " ++ message ++ ": " ++ explain;
  error_content_type := "text/html;charset=utf-8";
  date_time_string := str_of_Z;
  translate_path := fun p => "." ++ p;
  filesystem_encoding := "utf-8";
  listing_page := fun _ _ names => list_byte_of_string (String.concat " " names);
  repr := fun s => "'" ++ s ++ "'";
  base_guess_type := guess_by_suffix;
  not_modified_since := fun _ _ => false;
  json_loads_raises := loads_raises;
  dumps_limit_shallow := eq_refl
|}.

(** A file system with nothing in it. *)
Definition empty_world : World := {|
  path_exists := fun _ => false;
  isdir := fun _ => false;
  isfile := fun _ => false;
  listdir := fun _ => None;
  open_rb := fun _ => None;
  read_text := fun _ => Raise Exn.FileNotFoundError;
  time_time := 1730000000;
  chdir_error := fun _ => None;
  bind_error := fun _ _ => None;
  webbrowser_open := fun _ => Ok true;
  read_text_raises := fun _ => eq_refl
|}.

Definition page : string := "<html>geolocation test</html>".

Definition main_js : File :=
  {| f_data := list_byte_of_string "main();"; st_size := 7;
     st_mtime := 1720000000 |}.

Definition read_page (p : string) : result string :=
  if String.eqb p "geolocation-test-server.html" then Ok page
  else Raise Exn.FileNotFoundError.

Definition read_page_raises (p : string)
    : raises_Exception (read_page p) = true :=
  match String.eqb p "geolocation-test-server.html" as b
    return raises_Exception
             (if b then Ok page
              else Raise (Exn.of_class Exn.FileNotFoundError)) = true
  with
  | true => eq_refl
  | false => eq_refl
  end.

(** A checkout with the test page, the web build and [main.dart.js]
    in it. *)
Definition built_world : World := {|
  path_exists := fun p => String.eqb p "./build/web";
  isdir := fun p =>
    String.eqb p "./" || String.eqb p "./assets" || String.eqb p "./assets/"
    || String.eqb p "./build/web";
  isfile := fun p => String.eqb p "./main.dart.js";
  listdir := fun p =>
    if String.eqb p "./" then Some ["assets"; "main.dart.js"] else None;
  open_rb := fun p =>
    if String.eqb p "./main.dart.js" then Some main_js else None;
  read_text := read_page;
  time_time := 1730000000;
  chdir_error := fun _ => None;
  bind_error := fun _ _ => None;
  webbrowser_open := fun _ => Ok true;
  read_text_raises := read_page_raises
|}.

(** A web build: the root directory with [index.html] in it. *)
Definition app_world : World := {|
  path_exists := fun p => String.eqb p "./build/web";
  isdir := fun p => String.eqb p "./";
  isfile := fun p => String.eqb p ".//index.html";
  listdir := fun p => if String.eqb p "./" then Some ["index.html"] else None;
  open_rb := fun p =>
    if String.eqb p ".//index.html" then Some main_js else None;
  read_text := read_page;
  time_time := 1730000000;
  chdir_error := fun _ => None;
  bind_error := fun _ _ => None;
  webbrowser_open := fun _ => Ok true;
  read_text_raises := read_page_raises
|}.

(** The world [w] on a host where [os.chdir], the binding of a port
    and [webbrowser.open] end as given. *)
Definition on_host (w : World) (chdir : string -> option Exn.t)
    (bind : string -> Z -> option Exn.t) (browser : string -> result bool)
    : World := {|
  path_exists := path_exists w;
  isdir := isdir w;
  isfile := isfile w;
  listdir := listdir w;
  open_rb := open_rb w;
  read_text := read_text w;
  time_time := time_time w;
  chdir_error := chdir;
  bind_error := bind;
  webbrowser_open := browser;
  read_text_raises := read_text_raises w
|}.

(** The checkout on a host where another process listens on every
    port already. *)
Definition busy_world : World :=
  on_host built_world (fun _ => None)
    (fun _ _ => Some (Exn.of_class Exn.OSError)) (fun _ => Ok true).

(** The checkout on a host where the browser that [BROWSER] names
    cannot be executed. *)
Definition headless_world : World :=
  on_host built_world (fun _ => None) (fun _ _ => None)
    (fun _ => Raise Exn.OSError).

(** The checkout on a host without any browser: [webbrowser.open]
    returns [False]. *)
Definition no_browser_world : World :=
  on_host built_world (fun _ => None) (fun _ _ => None) (fun _ => Ok false).

Definition request (method target : string)
    (hs : list (string * string)) (body : string) : Request :=
  {| command := method; path := target; headers := hs;
     rfile := list_byte_of_string body |}.

Definition connection (w : World) (r : Request) : socketserver.Connection :=
  {| socketserver.conn_world := w;
     socketserver.conn_now := 1730000000;
     socketserver.conn_request := r |}.

End Sample.

(** * Properties *)

(** ** A rule per construct of the monad *)

Section Keeps.
Variable S : Type.
Variable I : S -> Prop.
Variable E : Exn.t -> Prop.

Lemma keeps_ret {A} (a : A) : keeps I E (ret a).
Proof. intros s Hs; simpl; auto. Qed.

Lemma keeps_bind {A B} (c : Py S A) (k : A -> Py S B) :
  keeps I E c -> (forall a, keeps I E (k a)) -> keeps I E (bind c k).
Proof.
  intros Hc Hk s Hs. simpl. unfold py_bind.
  destruct (Hc s Hs) as [Hi He].
  destruct (c s) as [[a | e] s']; simpl in *.
  - apply Hk; assumption.
  - auto.
Qed.

Lemma keeps_raise {A} (e : Exn.t) : E e -> keeps I E (@raise _ _ _ A e).
Proof. intros He s Hs; simpl; auto. Qed.

Lemma keeps_lift {A} (r : result A) :
  (forall e, r = Raise e -> E e) -> keeps I E (lift (S := S) r).
Proof.
  intros Hr s Hs; unfold lift; simpl; split; [assumption |].
  destruct r; auto.
Qed.

Lemma keeps_or_raise {A} (c : Exn.class) (o : option A) :
  E (Exn.of_class c) -> keeps I E (or_raise (S := S) c o).
Proof.
  intros He. destruct o; [apply keeps_ret | apply keeps_raise; assumption].
Qed.

Lemma keeps_try_except {A} (body handler : Py S A) (c : Exn.class) :
  keeps I E body -> keeps I E handler -> keeps I E (try_except body c handler).
Proof.
  intros Hb Hh s Hs. unfold try_except; simpl; unfold py_catch.
  destruct (Hb s Hs) as [Hi He].
  destruct (body s) as [[a | e] s']; simpl in *; [auto |].
  destruct (Exn.issubclass (Exn.cls e) c).
  - apply Hh; assumption.
  - simpl; auto.
Qed.

Lemma keeps_modify (f : S -> S) :
  (forall s, I s -> I (f s)) -> keeps I E (modify f).
Proof. intros Hf s Hs; simpl; auto. Qed.

Lemma keeps_get : keeps I E get.
Proof. intros s Hs; simpl; auto. Qed.

End Keeps.

(** ** Header blocks on the wire *)

Lemma sealed_handler_at (ok : list hline -> Prop) (version : string) :
  sealed ok (handler_at version).
Proof. constructor. Qed.

Lemma sealed_fresh (ok : list hline -> Prop) : sealed ok fresh_handler.
Proof. apply sealed_handler_at. Qed.

Lemma every_head_body ok sent data :
  every_head ok sent -> every_head ok (sent ++ [Body data]).
Proof.
  intros H. apply Forall_app; split; [assumption |].
  constructor; [exact Logic.I | constructor].
Qed.

Lemma every_head_head ok sent lines :
  every_head ok sent -> ok lines -> every_head ok (sent ++ [Head lines]).
Proof.
  intros H Hl. apply Forall_app; split; [assumption |].
  constructor; [exact Hl | constructor].
Qed.

(** ** The base classes keep what the overridden methods keep *)

Create HintDb keeps discriminated.

#[export] Hint Resolve keeps_ret keeps_modify keeps_try_except keeps_get
  : keeps.

Ltac keeps_step :=
  match goal with
  | |- keeps _ _ (bind _ _) => apply keeps_bind; [| intros]
  | |- keeps _ _ (ret _) => apply keeps_ret
  | |- keeps _ _ (or_raise _ _) => apply keeps_or_raise; reflexivity
  | |- keeps _ _ (raise _) => apply keeps_raise; reflexivity
  | |- keeps _ _ (try_except _ _ _) => apply keeps_try_except
  | |- keeps _ _ (if ?b then _ else _) => destruct b
  | |- keeps _ _ (match ?x with _ => _ end) => destruct x
  | |- keeps _ _ (let '(_, _) := ?x in _) => destruct x
  | |- keeps _ _ _ => solve [eauto with keeps]
  end.

Ltac keeps_auto := repeat keeps_step.

Section BaseKeeps.
Context {lib : PyLib} {hooks : Hooks}.
Variable ok : list hline -> Prop.
Variable w : World.
Variable self : Request.

Local Abbreviation inv := (keeps (sealed ok) is_Exception).

Hypothesis end_headers_inv : inv self_end_headers.
Hypothesis guess_type_inv : forall p, inv (self_guess_type p).

Lemma buffer_append_inv (l : hline) : inv (buffer_append l).
Proof.
  unfold buffer_append. keeps_auto.
Qed.

Lemma wfile_write_inv (data : list byte) : inv (wfile_write data).
Proof.
  unfold wfile_write. apply keeps_bind; [| intros; apply keeps_ret].
  apply keeps_modify. intros s Hs. apply every_head_body. exact Hs.
Qed.

Lemma has_version_inv : inv has_version.
Proof. unfold has_version. keeps_auto. Qed.

Hint Resolve buffer_append_inv wfile_write_inv end_headers_inv
  guess_type_inv has_version_inv : keeps.

Lemma send_header_inv (k v : string) :
  inv (BaseHTTPRequestHandler.send_header k v).
Proof. unfold BaseHTTPRequestHandler.send_header. keeps_auto. Qed.

Hint Resolve send_header_inv : keeps.

Lemma send_response_inv (code : Z) (message : option string) :
  inv (BaseHTTPRequestHandler.send_response w code message).
Proof.
  unfold BaseHTTPRequestHandler.send_response,
    BaseHTTPRequestHandler.send_response_only.
  keeps_auto.
Qed.

Hint Resolve send_response_inv : keeps.

Lemma send_error_inv (code : Z) (message : option string) :
  inv (BaseHTTPRequestHandler.send_error w self code message).
Proof.
  unfold BaseHTTPRequestHandler.send_error. keeps_auto.
Qed.

Hint Resolve send_error_inv : keeps.

Lemma list_directory_inv (p : string) :
  inv (SimpleHTTPRequestHandler.list_directory w self p).
Proof. unfold SimpleHTTPRequestHandler.list_directory. keeps_auto. Qed.

Lemma send_file_head_inv (p : string) :
  inv (SimpleHTTPRequestHandler.send_file_head w self p).
Proof. unfold SimpleHTTPRequestHandler.send_file_head. keeps_auto. Qed.

Hint Resolve list_directory_inv send_file_head_inv : keeps.

Lemma send_head_inv : inv (SimpleHTTPRequestHandler.send_head w self).
Proof. unfold SimpleHTTPRequestHandler.send_head. keeps_auto. Qed.

Hint Resolve send_head_inv : keeps.

Lemma do_GET_inv : inv (SimpleHTTPRequestHandler.do_GET w self).
Proof.
  unfold SimpleHTTPRequestHandler.do_GET, SimpleHTTPRequestHandler.copyfile.
  keeps_auto.
Qed.

Lemma do_HEAD_inv : inv (SimpleHTTPRequestHandler.do_HEAD w self).
Proof. unfold SimpleHTTPRequestHandler.do_HEAD. keeps_auto. Qed.

Lemma handle_one_request_inv (method : string -> option (Py HState unit)) :
  (forall name m, method name = Some m -> inv m) ->
  inv (BaseHTTPRequestHandler.handle_one_request w self method).
Proof.
  intros Hm. unfold BaseHTTPRequestHandler.handle_one_request.
  destruct (method (command self)) eqn:Hc.
  - eapply Hm; eassumption.
  - apply send_error_inv.
Qed.

End BaseKeeps.

Lemma unpack2_raises (s : string) (e : Exn.t) :
  unpack2 s = Raise e -> is_Exception e.
Proof.
  destruct s as [| a [| b [| c s]]]; simpl; intros H; inversion H;
    reflexivity.
Qed.

Lemma raises_Exception_sound {A} (r : result A) (e : Exn.t) :
  raises_Exception r = true -> r = Raise e -> is_Exception e.
Proof. intros Hr Heq. subst r. exact Hr. Qed.

Ltac keeps_lib :=
  match goal with
  | |- keeps _ _ (lift _) =>
      let e := fresh "e" in
      let He := fresh "He" in
      apply keeps_lift; intros e He;
      solve [ exact (unpack2_raises _ He)
            | exact (raises_Exception_sound (read_text_raises _ _) He)
            | exact (raises_Exception_sound (json_loads_raises _) He) ]
  end.

Ltac keeps_all := repeat first [keeps_lib | keeps_step].

Lemma py_json_dumps_inv {lib : PyLib} {S : Type} (I : S -> Prop)
    (indent : option nat) (obj : pyobj) :
  keeps I is_Exception (py_json_dumps indent obj).
Proof. unfold py_json_dumps. keeps_auto. Qed.

#[export] Hint Resolve py_json_dumps_inv : keeps.

(** ** The static server: what [end_headers] adds to a header block *)

Section FlutterKeeps.
Context {lib : PyLib}.
Variable w : World.
Variable self : Request.

(** The overridden [end_headers]: the three fields close the block
    that is flushed; nothing happens for a request without a version. *)
Lemma FlutterWebHandler_end_headers_run (s : HState) :
  run FlutterWebHandler.end_headers s =
  (Ok tt,
   if String.eqb (request_version s) "HTTP/0.9" then s
   else {| headers_buffer := [];
           wfile := wfile s
                    ++ [Head (headers_buffer s ++ no_cache_fields)];
           request_version := request_version s |}).
Proof.
  unfold run, FlutterWebHandler.end_headers,
    BaseHTTPRequestHandler.send_header, BaseHTTPRequestHandler.end_headers,
    has_version.
  simpl. unfold py_bind. simpl.
  destruct (String.eqb (request_version s) "HTTP/0.9") eqn:Hv;
    repeat (simpl; rewrite Hv); simpl.
  - reflexivity.
  - rewrite <- !app_assoc. reflexivity.
Qed.

Lemma FlutterWebHandler_end_headers_inv :
  keeps (sealed no_cache_last) is_Exception FlutterWebHandler.end_headers.
Proof.
  intros s Hs.
  pose proof (FlutterWebHandler_end_headers_run s) as Hrun.
  unfold run in Hrun. rewrite Hrun. simpl. split; [| exact Logic.I].
  destruct (String.eqb (request_version s) "HTTP/0.9"); [exact Hs |].
  apply every_head_head; [exact Hs |].
  exists (headers_buffer s). reflexivity.
Qed.

Lemma FlutterWebHandler_guess_type_inv (ok : list hline -> Prop) (p : string) :
  keeps (sealed ok) is_Exception (FlutterWebHandler.guess_type p).
Proof.
  unfold FlutterWebHandler.guess_type, SimpleHTTPRequestHandler.guess_type.
  keeps_all.
Qed.

Lemma FlutterWebHandler_method_inv (name : string) (m : Py HState unit) :
  FlutterWebHandler.method w self name = Some m ->
  keeps (sealed no_cache_last) is_Exception m.
Proof.
  unfold FlutterWebHandler.method.
  destruct (String.eqb name "GET");
    [| destruct (String.eqb name "HEAD")]; intros H; inversion H.
  - apply do_GET_inv.
    + apply FlutterWebHandler_end_headers_inv.
    + apply FlutterWebHandler_guess_type_inv.
  - apply do_HEAD_inv.
    + apply FlutterWebHandler_end_headers_inv.
    + apply FlutterWebHandler_guess_type_inv.
Qed.

End FlutterKeeps.

Lemma FlutterWebHandler_handle_inv {lib : PyLib}
    (c : socketserver.Connection) :
  keeps (sealed no_cache_last) is_Exception (FlutterWebHandler_handle c).
Proof.
  unfold FlutterWebHandler_handle.
  apply handle_one_request_inv.
  - apply FlutterWebHandler_end_headers_inv.
  - apply FlutterWebHandler_method_inv.
Qed.

(** The 404 of a directory that cannot be listed, and the 501 of a
    method the class does not have. *)
Example static_server_404_headers :
  heads (wfile (snd (run (FlutterWebHandler_handle (lib := Sample.lib)
                            (Sample.connection Sample.built_world
                               (Sample.request "GET" "/assets/" [] "")))
                         fresh_handler)))
  = [ [ StatusLine "HTTP/1.0" 404 "No permission to list directory";
        Field "Server" "SimpleHTTP/0.6 Python/3.12.3";
        Field "Date" "1730000000";
        Field "Connection" "close";
        Field "Content-Type" "text/html;charset=utf-8";
        Field "Content-Length" "66";
        Field "Cache-Control" "no-cache, no-store, must-revalidate";
        Field "Pragma" "no-cache";
        Field "Expires" "0" ] ].
Proof. reflexivity. Qed.

Example static_server_501_headers :
  heads (wfile (snd (run (FlutterWebHandler_handle (lib := Sample.lib)
                            (Sample.connection Sample.built_world
                               (Sample.request "POST" "/x" [] "")))
                         fresh_handler)))
  = [ [ StatusLine "HTTP/1.0" 501 "Unsupported method ('POST')";
        Field "Server" "SimpleHTTP/0.6 Python/3.12.3";
        Field "Date" "1730000000";
        Field "Connection" "close";
        Field "Content-Type" "text/html;charset=utf-8";
        Field "Content-Length" "71";
        Field "Cache-Control" "no-cache, no-store, must-revalidate";
        Field "Pragma" "no-cache";
        Field "Expires" "0" ] ].
Proof. reflexivity. Qed.

(** ** The mock API server: what [end_headers] adds to a header block *)

Section GeolocationKeeps.
Context {lib : PyLib}.
Variable w : World.
Variable now : datetime.
Variable self : Request.

(** The overridden [end_headers]: the three fields close the block
    that is flushed; nothing happens for a request without a version. *)
Lemma GeolocationTestHandler_end_headers_run (s : HState) :
  run GeolocationTestHandler.end_headers s =
  (Ok tt,
   if String.eqb (request_version s) "HTTP/0.9" then s
   else {| headers_buffer := [];
           wfile := wfile s ++ [Head (headers_buffer s ++ cors_fields)];
           request_version := request_version s |}).
Proof.
  unfold run, GeolocationTestHandler.end_headers,
    BaseHTTPRequestHandler.send_header, BaseHTTPRequestHandler.end_headers,
    has_version.
  simpl. unfold py_bind. simpl.
  destruct (String.eqb (request_version s) "HTTP/0.9") eqn:Hv;
    repeat (simpl; rewrite Hv); simpl.
  - reflexivity.
  - rewrite <- !app_assoc. reflexivity.
Qed.

Lemma GeolocationTestHandler_end_headers_inv :
  keeps (sealed carries_cors) is_Exception GeolocationTestHandler.end_headers.
Proof.
  intros s Hs.
  pose proof (GeolocationTestHandler_end_headers_run s) as Hrun.
  unfold run in Hrun. rewrite Hrun. simpl. split; [| exact Logic.I].
  destruct (String.eqb (request_version s) "HTTP/0.9"); [exact Hs |].
  apply every_head_head; [exact Hs |].
  unfold carries_cors, cors_fields.
  repeat split; apply in_or_app; right; simpl; auto.
Qed.

Lemma base_guess_type_inv (ok : list hline -> Prop) (p : string) :
  keeps (sealed ok) is_Exception (SimpleHTTPRequestHandler.guess_type p).
Proof. unfold SimpleHTTPRequestHandler.guess_type. keeps_all. Qed.

Local Abbreviation inv := (keeps (sealed carries_cors) is_Exception).

Hint Resolve GeolocationTestHandler_end_headers_inv : keeps.
Hint Resolve send_header_inv send_response_inv wfile_write_inv : keeps.

Lemma send_json_response_inv (data : pyobj) :
  inv (GeolocationTestHandler.send_json_response w data).
Proof. unfold GeolocationTestHandler.send_json_response. keeps_all. Qed.

Lemma send_error_response_inv (message : string) :
  inv (GeolocationTestHandler.send_error_response w message).
Proof. unfold GeolocationTestHandler.send_error_response. keeps_all. Qed.

Hint Resolve send_json_response_inv send_error_response_inv : keeps.

Lemma serve_test_interface_inv :
  inv (GeolocationTestHandler.serve_test_interface w self).
Proof.
  unfold GeolocationTestHandler.serve_test_interface. keeps_all.
  apply send_error_inv. apply GeolocationTestHandler_end_headers_inv.
Qed.

Lemma GeolocationTestHandler_do_GET_inv :
  inv (GeolocationTestHandler.do_GET w now self).
Proof.
  unfold GeolocationTestHandler.do_GET,
    GeolocationTestHandler.serve_mock_weather,
    GeolocationTestHandler.serve_mock_location,
    GeolocationTestHandler.serve_journal_status.
  keeps_all.
  - apply serve_test_interface_inv.
  - apply do_GET_inv.
    + apply GeolocationTestHandler_end_headers_inv.
    + apply base_guess_type_inv.
Qed.

Lemma GeolocationTestHandler_do_POST_inv :
  inv (GeolocationTestHandler.do_POST w now self).
Proof.
  unfold GeolocationTestHandler.do_POST,
    GeolocationTestHandler.content_length_of.
  keeps_all.
Qed.

Lemma GeolocationTestHandler_method_inv (name : string) (m : Py HState unit) :
  GeolocationTestHandler.method w now self name = Some m -> inv m.
Proof.
  unfold GeolocationTestHandler.method.
  destruct (String.eqb name "GET");
    [| destruct (String.eqb name "POST");
       [| destruct (String.eqb name "HEAD")]];
    intros H; inversion H.
  - apply GeolocationTestHandler_do_GET_inv.
  - apply GeolocationTestHandler_do_POST_inv.
  - apply do_HEAD_inv.
    + apply GeolocationTestHandler_end_headers_inv.
    + apply base_guess_type_inv.
Qed.

End GeolocationKeeps.

Lemma GeolocationTestHandler_handle_inv {lib : PyLib}
    (c : socketserver.Connection) :
  keeps (sealed carries_cors) is_Exception (GeolocationTestHandler_handle c).
Proof.
  unfold GeolocationTestHandler_handle.
  apply handle_one_request_inv.
  - apply GeolocationTestHandler_end_headers_inv.
  - apply GeolocationTestHandler_method_inv.
Qed.

(** The 404 of the static fallback. *)
Example mock_server_404_headers :
  heads (wfile (snd (run (GeolocationTestHandler_handle (lib := Sample.lib)
                            (Sample.connection Sample.built_world
                               (Sample.request "GET" "/missing.txt" [] "")))
                         fresh_handler)))
  = [ [ StatusLine "HTTP/1.0" 404 "File not found";
        Field "Server" "SimpleHTTP/0.6 Python/3.12.3";
        Field "Date" "1730000000";
        Field "Connection" "close";
        Field "Content-Type" "text/html;charset=utf-8";
        Field "Content-Length" "49";
        Field "Access-Control-Allow-Origin" "*";
        Field "Access-Control-Allow-Methods" "GET, POST, OPTIONS";
        Field "Access-Control-Allow-Headers" "Content-Type" ] ].
Proof. reflexivity. Qed.

(** ** The static server: content types (C6) *)

(** Unless the base class returns a string of exactly two characters,
    which no content type is, the unpacking in [guess_type] raises
    before the suffix of the path is looked at. *)
Lemma FlutterWebHandler_guess_type_raises {lib : PyLib}
    (p : string) (s : HState) :
  String.length (base_guess_type p) <> 2%nat ->
  run (FlutterWebHandler.guess_type p) s = (Raise Exn.ValueError, s).
Proof.
  intros Hlen.
  unfold run, FlutterWebHandler.guess_type, SimpleHTTPRequestHandler.guess_type.
  simpl. unfold py_bind, py_ret, lift.
  destruct (base_guess_type p) as [| a [| b [| c rest]]]; simpl in *;
    try reflexivity.
  exfalso. apply Hlen. reflexivity.
Qed.

(** Where it does return, it returns what the specification says. *)
Lemma FlutterWebHandler_guess_type_returns {lib : PyLib}
    (p : string) (s : HState) (a b : ascii) :
  base_guess_type p = String a (String b "") ->
  run (FlutterWebHandler.guess_type p) s =
  (Ok (if endswith p ".js" then "application/javascript"
       else if endswith p ".wasm" then "application/wasm"
       else if endswith p ".json" then "application/json"
       else String a ""), s).
Proof.
  intros Hbase.
  unfold run, FlutterWebHandler.guess_type, SimpleHTTPRequestHandler.guess_type.
  simpl. unfold py_bind, py_ret, lift. rewrite Hbase. simpl.
  destruct (endswith p ".js"); [reflexivity |].
  destruct (endswith p ".wasm"); [reflexivity |].
  destruct (endswith p ".json"); reflexivity.
Qed.

(** C6, on the code.  For [/main.dart.js], [guess_type] raises
    [ValueError] where the specification has it return
    [application/javascript]; the GET of that file, which exists, is
    aborted by the exception before anything is written, so the client
    gets no response and no [Content-Type] at all. *)
Theorem static_server_guess_type_js_raises :
  run (FlutterWebHandler.guess_type (lib := Sample.lib) "/main.dart.js")
      fresh_handler
  = (Raise Exn.ValueError, fresh_handler)
  /\ run (FlutterWebHandler_handle (lib := Sample.lib)
            (Sample.connection Sample.built_world
               (Sample.request "GET" "/main.dart.js" [] "")))
         fresh_handler
     = (Raise Exn.ValueError, fresh_handler).
Proof. split; reflexivity. Qed.

(** ** The mock API server: POST (C9, C10, C1, C2) *)

(** C9.  A POST whose path is not exactly [/api/journal/create] returns
    without writing anything: no status line, no header, no body; the
    handler is left as it was. *)
Theorem post_other_path_writes_nothing {lib : PyLib}
    (w : World) (now : datetime) (self : Request) (s : HState) :
  path self <> create_path ->
  run (GeolocationTestHandler.do_POST w now self) s = (Ok tt, s).
Proof.
  intros Hpath. unfold run, GeolocationTestHandler.do_POST.
  destruct (String.eqb_spec (path self) "/api/journal/create") as [Heq | _].
  - contradiction.
  - reflexivity.
Qed.

Lemma post_other_path_writes_nothing_witness :
  path (Sample.request "POST" "/api/journal/create?draft=1" [] "{}")
    <> create_path
  /\ run (GeolocationTestHandler.do_POST (lib := Sample.lib)
            Sample.built_world 1730000000
            (Sample.request "POST" "/api/journal/create?draft=1" [] "{}"))
         fresh_handler
     = (Ok tt, fresh_handler).
Proof.
  split.
  - discriminate.
  - apply (post_other_path_writes_nothing (lib := Sample.lib)).
    discriminate.
Defined.



(** The payloads the source writes out are serialised: they are nested
    less deep than any recursion limit. *)
Lemma shallow_fits {lib : PyLib} (obj : pyobj) :
  (nesting obj <= 2)%nat -> (nesting obj <=? dumps_limit)%nat = true.
Proof.
  intros Hobj. pose proof dumps_limit_shallow as Hlimit.
  apply Nat.leb_le in Hlimit. apply Nat.leb_le. lia.
Qed.

(** [send_json_response] sends the 200 reply, unless [json.dumps]
    raises on its first line, before anything is written. *)
Lemma send_json_response_run {lib : PyLib} (w : World) (data : pyobj) :
  run (GeolocationTestHandler.send_json_response w data) fresh_handler
  = if (nesting data <=? dumps_limit)%nat
    then (Ok tt, {| headers_buffer := []; wfile := json_reply w data;
                    request_version := "HTTP/1.1" |})
    else (Raise Exn.RecursionError, fresh_handler).
Proof.
  unfold run, GeolocationTestHandler.send_json_response, py_json_dumps.
  simpl. unfold py_bind at 1.
  destruct (nesting data <=? dumps_limit)%nat; reflexivity.
Qed.

Lemma send_json_response_fits {lib : PyLib} (w : World) (data : pyobj) :
  (nesting data <= 2)%nat ->
  run (GeolocationTestHandler.send_json_response w data) fresh_handler
  = (Ok tt, {| headers_buffer := []; wfile := json_reply w data;
               request_version := "HTTP/1.1" |}).
Proof.
  intros Hdata. rewrite send_json_response_run.
  rewrite (shallow_fits data Hdata). reflexivity.
Qed.

Lemma send_error_response_run {lib : PyLib} (w : World) (message : string) :
  run (GeolocationTestHandler.send_error_response w message) fresh_handler
  = (Ok tt, {| headers_buffer := []; wfile := error_reply w message;
               request_version := "HTTP/1.1" |}).
Proof.
  unfold run, GeolocationTestHandler.send_error_response, py_json_dumps.
  pose proof (shallow_fits (PyDict [("error", PyStr message)])) as Hfits.
  simpl in Hfits. simpl. unfold py_bind at 1.
  rewrite Hfits; [reflexivity | lia].
Qed.

Lemma rfile_read_all (data : list byte) :
  rfile_read (Z.of_nat (length data)) data = Some data.
Proof.
  unfold rfile_read.
  destruct (Z.ltb_spec (Z.of_nat (length data)) (-1)) as [Hneg | _]; [lia |].
  destruct (Z.eqb_spec (Z.of_nat (length data)) (-1)) as [Hneg | _]; [lia |].
  rewrite Nat2Z.id, firstn_all. reflexivity.
Qed.

Lemma handle_POST {lib : PyLib} (c : socketserver.Connection) :
  command (socketserver.conn_request c) = "POST" ->
  GeolocationTestHandler_handle c
  = GeolocationTestHandler.do_POST (socketserver.conn_world c)
      (socketserver.conn_now c) (socketserver.conn_request c).
Proof.
  intros Hcmd.
  unfold GeolocationTestHandler_handle,
    BaseHTTPRequestHandler.handle_one_request, GeolocationTestHandler.method.
  rewrite Hcmd. reflexivity.
Qed.

Lemma nesting_journal_response {lib : PyLib} (now : datetime)
    (journal_data : pyobj) :
  nesting (GeolocationTestHandler.journal_response now journal_data)
  = S (nesting journal_data).
Proof. simpl. rewrite Nat.max_0_r. reflexivity. Qed.




(** What [socketserver] appends to the trace for one connection whose
    handler returns. *)
Lemma process_request_returns {lib : PyLib}
    (handle : socketserver.Connection -> Py HState unit)
    (c : socketserver.Connection) (h : HState) (trace : Process) :
  run (handle c) fresh_handler = (Ok tt, h) ->
  run (socketserver.process_request handle c) trace
  = (Ok tt, (trace ++ [Reply (wfile h)])%list).
Proof.
  intros Hrun. unfold socketserver.process_request.
  rewrite Hrun. reflexivity.
Qed.




(** ** The mock API server: GET dispatch (C3) *)

(** C3.  [do_GET] dispatches on the path of the parsed request target,
    by exact match and in the order of the table: [/] and [/test] serve
    the test page, [/api/weather], [/api/location] and [/api/journal]
    their mock payloads, and any other path goes to the static files of
    the base class.  The page is sent as [text/html] with the contents
    of the local file (a 404 when the file is not there); each mock
    endpoint sends its fixed payload as JSON. *)
Theorem get_dispatch {lib : PyLib} (w : World) (now : datetime)
    (self : Request) (s : HState) :
  run (GeolocationTestHandler.do_GET w now self) s
  = match urlparse (path self) with
    | Some parsed =>
        run (serve_route w now self
               (first_match (pr_path parsed) route_table)) s
    | None => (Raise Exn.ValueError, s)
    end
  /\ run (GeolocationTestHandler.serve_test_interface w self) fresh_handler
     = match read_text w "geolocation-test-server.html" with
       | Ok content =>
           (Ok tt, {| headers_buffer := [];
                      wfile := html_reply w content;
                      request_version := "HTTP/1.1" |})
       | Raise e =>
           if Exn.issubclass (Exn.cls e) Exn.FileNotFoundError
           then run (BaseHTTPRequestHandler.send_error
                       (hooks := GeolocationTestHandler.hooks)
                       w self 404 (Some "Test interface not found"))
                    fresh_handler
           else (Raise e, fresh_handler)
       end
  /\ run (GeolocationTestHandler.serve_mock_weather w now) fresh_handler
     = (Ok tt, {| headers_buffer := [];
                  wfile := json_reply w
                             (GeolocationTestHandler.weather_data now);
                  request_version := "HTTP/1.1" |})
  /\ run (GeolocationTestHandler.serve_mock_location w now) fresh_handler
     = (Ok tt, {| headers_buffer := [];
                  wfile := json_reply w
                             (GeolocationTestHandler.location_data now);
                  request_version := "HTTP/1.1" |})
  /\ run (GeolocationTestHandler.serve_journal_status w now) fresh_handler
     = (Ok tt, {| headers_buffer := [];
                  wfile := json_reply w
                             (GeolocationTestHandler.status now);
                  request_version := "HTTP/1.1" |}).
Proof.
  split; [| split; [| split; [| split]]].
  - unfold run, GeolocationTestHandler.do_GET. simpl. unfold py_bind at 1.
    destruct (urlparse (path self)) as [parsed |]; simpl; [| reflexivity].
    destruct (String.eqb (pr_path parsed) "/"); [reflexivity |].
    destruct (String.eqb (pr_path parsed) "/test"); [reflexivity |].
    destruct (String.eqb (pr_path parsed) "/api/weather"); [reflexivity |].
    destruct (String.eqb (pr_path parsed) "/api/location"); [reflexivity |].
    destruct (String.eqb (pr_path parsed) "/api/journal"); reflexivity.
  - unfold run, GeolocationTestHandler.serve_test_interface, try_except.
    simpl. unfold py_catch, py_bind at 1. unfold lift.
    destruct (read_text w "geolocation-test-server.html") as [content | e];
      [reflexivity |].
    destruct (Exn.issubclass (Exn.cls e) Exn.FileNotFoundError); reflexivity.
  - apply send_json_response_fits. simpl. lia.
  - apply send_json_response_fits. simpl. lia.
  - apply send_json_response_fits. simpl. lia.
Qed.

(** The query string is not part of the path that is matched. *)
Example get_test_with_query :
  run (GeolocationTestHandler.do_GET (lib := Sample.lib)
         Sample.built_world 1730000000
         (Sample.request "GET" "/test?lang=en" [] ""))
      fresh_handler
  = (Ok tt, {| headers_buffer := [];
               wfile := html_reply (lib := Sample.lib) Sample.built_world
                          Sample.page;
               request_version := "HTTP/1.1" |}).
Proof. reflexivity. Qed.

(** ** Serving until Ctrl+C (C7, C8) *)

Section ServeForever.
Context {lib : PyLib}.
Variable handle : socketserver.Connection -> Py HState unit.
Hypothesis handle_raises :
  forall c e h, run (handle c) fresh_handler = (Raise e, h) -> is_Exception e.

Lemma process_request_run (c : socketserver.Connection) (trace : Process) :
  run (socketserver.process_request handle c) trace
  = (Ok tt, (trace ++ connection_trace handle c)%list).
Proof.
  unfold socketserver.process_request, connection_trace.
  destruct (run (handle c) fresh_handler) as [[[] | e] h] eqn:Hrun.
  - reflexivity.
  - pose proof (handle_raises Hrun) as He. unfold is_Exception in He.
    unfold run. simpl. unfold py_bind. simpl. rewrite He.
    unfold emit. simpl. unfold py_bind. simpl.
    rewrite <- app_assoc. reflexivity.
Qed.

(** Every connection that arrives is served; only the interrupt ends
    the loop. *)
Lemma serve_forever_run (arriving : list socketserver.Connection)
    (trace : Process) :
  run (socketserver.serve_forever handle arriving) trace
  = (Raise Exn.KeyboardInterrupt,
     (trace ++ flat_map (connection_trace handle) arriving)%list).
Proof.
  revert trace. induction arriving as [| c rest IH]; intros trace.
  - simpl. rewrite app_nil_r. reflexivity.
  - simpl. unfold run, py_bind.
    pose proof (process_request_run c trace) as Hstep.
    unfold run in Hstep. rewrite Hstep.
    pose proof (IH (trace ++ connection_trace handle c)%list) as Hrest.
    unfold run in Hrest. rewrite Hrest. rewrite <- app_assoc. reflexivity.
Qed.

End ServeForever.

Lemma FlutterWebHandler_handle_raises {lib : PyLib}
    (c : socketserver.Connection) (e : Exn.t) (h : HState) :
  run (FlutterWebHandler_handle c) fresh_handler = (Raise e, h) ->
  is_Exception e.
Proof.
  intros Hrun.
  destruct (FlutterWebHandler_handle_inv c (sealed_fresh no_cache_last))
    as [_ He].
  unfold run in Hrun. rewrite Hrun in He. exact He.
Qed.

Lemma GeolocationTestHandler_handle_raises {lib : PyLib}
    (c : socketserver.Connection) (e : Exn.t) (h : HState) :
  run (GeolocationTestHandler_handle c) fresh_handler = (Raise e, h) ->
  is_Exception e.
Proof.
  intros Hrun.
  destruct (GeolocationTestHandler_handle_inv c (sealed_fresh carries_cors))
    as [_ He].
  unfold run in Hrun. rewrite Hrun in He. exact He.
Qed.


Example static_server_without_build :
  run (serve_flutter_web (lib := Sample.lib) Sample.empty_world []) []
  = (Raise (Exn.system_exit 1),
     [ Print "ERROR: Web build directory not found: ./build/web";
       Print "Please run 'flutter build web' first" ]).
Proof. reflexivity. Qed.





(** * The reply as a whole, and further properties *)

(** ** The stages of a reply, rule by rule *)

Section Hoare.
Variable S : Type.

Lemma hoare_ret {A} (P : S -> Prop) (Q : A -> S -> Prop) E (a : A) :
  (forall s, P s -> Q a s) -> hoare P (ret a) Q E.
Proof. intros H s Hs. simpl. auto. Qed.

Lemma hoare_bind {A B} (P : S -> Prop) (R : A -> S -> Prop)
    (Q : B -> S -> Prop) E (c : Py S A) (k : A -> Py S B) :
  hoare P c R E -> (forall a, hoare (R a) (k a) Q E) ->
  hoare P (bind c k) Q E.
Proof.
  intros Hc Hk s Hs. simpl. unfold py_bind.
  specialize (Hc s Hs). destruct (c s) as [[a | e] s'].
  - apply Hk. exact Hc.
  - exact Hc.
Qed.

Lemma hoare_weaken {A} (P P' : S -> Prop) (Q Q' : A -> S -> Prop)
    (E E' : Exn.t -> S -> Prop) (c : Py S A) :
  hoare P' c Q' E' ->
  (forall s, P s -> P' s) ->
  (forall a s, Q' a s -> Q a s) ->
  (forall e s, E' e s -> E e s) ->
  hoare P c Q E.
Proof.
  intros Hc HP HQ HE s Hs. specialize (Hc s (HP s Hs)).
  destruct (c s) as [[a | e] s']; auto.
Qed.

Lemma hoare_or_raise {A} (P : S -> Prop) (Q : A -> S -> Prop) E
    (cls : Exn.class) (o : option A) :
  (forall a s, P s -> Q a s) -> (forall s, P s -> E (Exn.of_class cls) s) ->
  hoare P (or_raise cls o) Q E.
Proof. intros HQ HE s Hs. destruct o; simpl; auto. Qed.

Lemma hoare_lift {A} (P : S -> Prop) (Q : A -> S -> Prop) E (r : result A) :
  (forall a s, P s -> Q a s) -> (forall e s, P s -> E e s) ->
  hoare P (lift r) Q E.
Proof. intros HQ HE s Hs. unfold lift. destruct r; auto. Qed.

Lemma hoare_try_except {A} (P : S -> Prop) (Q : A -> S -> Prop)
    (E E' : Exn.t -> S -> Prop) (body handler : Py S A) (cls : Exn.class) :
  hoare P body Q E' ->
  (forall e, hoare (E' e) handler Q E) ->
  (forall e s, E' e s -> E e s) ->
  hoare P (try_except body cls handler) Q E.
Proof.
  intros Hb Hh HE s Hs. unfold try_except. simpl. unfold py_catch.
  specialize (Hb s Hs). destruct (body s) as [[a | e] s']; [exact Hb |].
  destruct (Exn.issubclass (Exn.cls e) cls).
  - apply (Hh e). exact Hb.
  - simpl. apply HE. exact Hb.
Qed.

End Hoare.

Lemma hoare_pre {S A} (P P' : S -> Prop) (Q : A -> S -> Prop) E (c : Py S A) :
  hoare P' c Q E -> (forall s, P s -> P' s) -> hoare P c Q E.
Proof. intros Hc HP. eapply hoare_weaken; eauto. Qed.

Lemma hoare_post {S A} (P : S -> Prop) (Q Q' : A -> S -> Prop) E (c : Py S A) :
  hoare P c Q' E -> (forall a s, Q' a s -> Q a s) -> hoare P c Q E.
Proof. intros Hc HQ. eapply hoare_weaken; eauto. Qed.

Lemma idle_buffering (version : string) (h : HState) :
  version <> "HTTP/0.9" -> idle_at version h -> buffering h.
Proof. intros Hv H; rewrite H; split; [reflexivity | exact Hv]. Qed.

Lemma idle_complete (version : string) (h : HState) :
  idle_at version h -> complete h.
Proof. intros H; rewrite H; split; reflexivity. Qed.

Lemma has_version_run (h : HState) :
  run has_version h
  = (Ok (negb (String.eqb (request_version h) "HTTP/0.9")), h).
Proof. reflexivity. Qed.

Lemma buffering_versioned (h : HState) :
  buffering h -> String.eqb (request_version h) "HTTP/0.9" = false.
Proof. intros [_ Hv]. apply String.eqb_neq. exact Hv. Qed.

Lemma py_json_dumps_stage {lib : PyLib} {S : Type} (P : S -> Prop)
    (indent : option nat) (obj : pyobj) :
  hoare P (py_json_dumps indent obj) (fun _ => P) (fun _ => P).
Proof.
  intros s Hs. unfold py_json_dumps.
  destruct (nesting obj <=? dumps_limit)%nat; exact Hs.
Qed.

Lemma head_sent_complete (h : HState) : head_sent h -> complete h.
Proof. intros [Hb [l Hw]]. split; [exact Hb | rewrite Hw; reflexivity]. Qed.

Lemma head_sent_answered (self : Request) (h : HState) :
  head_sent h -> answered self h.
Proof. intros H. split; [apply head_sent_complete; exact H | intros _ _; exact H]. Qed.

Lemma hoare_conseq {S A} (P P' : S -> Prop) (Q Q' : A -> S -> Prop) E
    (c : Py S A) :
  hoare P' c Q' E ->
  (forall s, P s -> P' s) ->
  (forall a s, Q' a s -> Q a s) ->
  hoare P c Q E.
Proof. intros Hc HP HQ. eapply hoare_weaken; eauto. Qed.

Lemma hoare_skip {S A} (P : S -> Prop) E (a : A) :
  hoare P (ret a) (fun _ => P) E.
Proof. intros s Hs. exact Hs. Qed.

Create HintDb stage discriminated.
#[export] Hint Resolve idle_buffering idle_complete head_sent_complete
  head_sent_answered : stage.

(** [by_spec H]: close a step with the specification [H], weakening
    on both sides where the stages differ. *)
Ltac by_spec H :=
  eapply hoare_conseq;
  [ apply H
  | let Hs := fresh in intros ? Hs; first [exact Hs | revert Hs; eauto with stage]
  | let Hs := fresh in intros ? ? Hs; first [exact Hs | revert Hs; eauto with stage] ].

Section BaseStages.
Context {lib : PyLib} {hooks : Hooks}.
Variable w : World.
Variable self : Request.
(** The version the request line carried: any but none. *)
Variable version : string.
Hypothesis versioned : version <> "HTTP/0.9".

Local Abbreviation idle := (idle_at version).

Hypothesis end_headers_stage :
  forall E, hoare buffering self_end_headers (fun _ => head_sent) E.
Hypothesis guess_type_stage :
  forall p, hoare idle (self_guess_type p) (fun _ => idle) (fun _ => idle).

Lemma send_header_stage (k v : string) E :
  hoare buffering (BaseHTTPRequestHandler.send_header k v)
    (fun _ => buffering) E.
Proof.
  intros s Hs. pose proof (buffering_versioned Hs) as Hv.
  unfold BaseHTTPRequestHandler.send_header, has_version.
  simpl. unfold py_bind. simpl. rewrite Hv. exact Hs.
Qed.

Lemma send_response_stage (code : Z) (message : option string) E :
  hoare buffering (BaseHTTPRequestHandler.send_response w code message)
    (fun _ => buffering) E.
Proof.
  intros s Hs. pose proof (buffering_versioned Hs) as Hv.
  unfold BaseHTTPRequestHandler.send_response,
    BaseHTTPRequestHandler.send_response_only,
    BaseHTTPRequestHandler.send_header, has_version.
  simpl. unfold py_bind. simpl. rewrite Hv. simpl. rewrite Hv. simpl.
  rewrite Hv. exact Hs.
Qed.

Lemma wfile_write_stage (data : list byte) E :
  hoare head_sent (wfile_write data)
    (fun _ h => complete h /\ exists lines, wfile h = [Head lines; Body data]) E.
Proof.
  intros s [Hb [l Hw]]. simpl. rewrite Hw, Hb. simpl.
  split; [split; reflexivity | exists l; reflexivity].
Qed.

Ltac stage :=
  cbv beta;
  lazymatch goal with
  | |- hoare _ (bind _ _) _ _ => eapply hoare_bind; [stage | intros ?; stage]
  | |- hoare _ (BaseHTTPRequestHandler.send_header _ _) _ _ =>
      by_spec send_header_stage
  | |- hoare _ (BaseHTTPRequestHandler.send_response _ _ _) _ _ =>
      by_spec send_response_stage
  | |- hoare _ self_end_headers _ _ => by_spec end_headers_stage
  | |- hoare _ (ret _) ?Q _ =>
      first [ is_evar Q; apply hoare_skip
            | apply hoare_ret; intros; eauto with stage ]
  | |- _ => idtac
  end.

Lemma send_error_stage (code : Z) (message : option string) E :
  hoare buffering (BaseHTTPRequestHandler.send_error w self code message)
    (fun _ => answered self) E.
Proof.
  unfold BaseHTTPRequestHandler.send_error.
  destruct (responses code) as [[shortmsg longmsg] |];
    destruct ((200 <=? code) && negb (BaseHTTPRequestHandler.no_body_status code));
    cbv zeta.
  all: stage.
  all: match goal with
       | |- hoare _ (match ?b with _ => _ end) _ _ => destruct b as [| x rest]
       end; stage.
  all: destruct (String.eqb (command self) "HEAD") eqn:Hhead;
    cbn [negb]; stage.
  all: apply String.eqb_neq in Hhead.
  all: eapply hoare_post; [apply wfile_write_stage |].
  all: intros ? s [Hc _]; split; [exact Hc | intros Hcmd; contradiction].
Qed.

Ltac stage_base :=
  cbv beta;
  lazymatch goal with
  | |- hoare _ (bind _ _) _ _ =>
      eapply hoare_bind; [stage_base | intros ?; stage_base]
  | |- hoare _ (BaseHTTPRequestHandler.send_header _ _) _ _ =>
      by_spec send_header_stage
  | |- hoare _ (BaseHTTPRequestHandler.send_response _ _ _) _ _ =>
      by_spec send_response_stage
  | |- hoare _ (BaseHTTPRequestHandler.send_error _ _ _ _) _ _ =>
      by_spec send_error_stage
  | |- hoare _ self_end_headers _ _ => by_spec end_headers_stage
  | |- hoare _ (self_guess_type _) _ _ => by_spec guess_type_stage
  | |- hoare _ (ret _) ?Q _ =>
      first [ is_evar Q; apply hoare_skip
            | apply hoare_ret; unfold head_or_answer; intros;
              eauto with stage ]
  | |- _ => idtac
  end.

Lemma list_directory_stage (p : string) E :
  hoare buffering (SimpleHTTPRequestHandler.list_directory w self p)
    (head_or_answer self) E.
Proof.
  unfold SimpleHTTPRequestHandler.list_directory.
  destruct (listdir w p); stage_base.
Qed.

Lemma send_file_head_stage (p : string) :
  hoare idle (SimpleHTTPRequestHandler.send_file_head w self p)
    (head_or_answer self) (fun _ => idle).
Proof.
  unfold SimpleHTTPRequestHandler.send_file_head.
  eapply hoare_bind; [apply guess_type_stage | intros ctype].
  destruct (endswith p "/"); [stage_base |].
  destruct (open_rb w p) as [f |]; [| stage_base].
  destruct (headers_get "If-Modified-Since" (headers self)) as [since |];
    [destruct (negb (headers_mem "If-None-Match" (headers self))
               && not_modified_since since (st_mtime f)) |];
    stage_base.
Qed.

Lemma send_head_stage :
  hoare idle (SimpleHTTPRequestHandler.send_head w self)
    (head_or_answer self) (fun _ => idle).
Proof.
  unfold SimpleHTTPRequestHandler.send_head. cbv zeta.
  destruct (isdir w (translate_path (path self)));
    [| apply send_file_head_stage].
  eapply hoare_bind.
  - apply hoare_or_raise with (Q := fun _ => idle); auto.
  - intros parts. cbv beta.
    destruct (negb (endswith (sp_path parts) "/")); [stage_base |].
    destruct (isfile w _); [apply send_file_head_stage |].
    destruct (isfile w _); [apply send_file_head_stage |].
    by_spec list_directory_stage.
Qed.

Lemma do_GET_stage :
  hoare idle (SimpleHTTPRequestHandler.do_GET w self)
    (fun _ => complete) (fun _ => idle).
Proof.
  unfold SimpleHTTPRequestHandler.do_GET.
  eapply hoare_bind; [apply send_head_stage | intros [data |]]; cbv beta.
  - unfold SimpleHTTPRequestHandler.copyfile, head_or_answer.
    destruct data as [| b data].
    + apply hoare_ret. intros s Hs. apply head_sent_complete. exact Hs.
    + eapply hoare_post; [apply wfile_write_stage |].
      intros ? s [Hc _]. exact Hc.
  - apply hoare_ret. intros s [Hc _]. exact Hc.
Qed.

Lemma do_HEAD_stage :
  hoare idle (SimpleHTTPRequestHandler.do_HEAD w self)
    (fun _ => answered self) (fun _ => idle).
Proof.
  unfold SimpleHTTPRequestHandler.do_HEAD.
  eapply hoare_bind; [apply send_head_stage | intros [data |]]; cbv beta.
  - apply hoare_ret. intros s Hs. apply head_sent_answered. exact Hs.
  - apply hoare_ret. intros s Hs. exact Hs.
Qed.

End BaseStages.

(** ** One reply at most, or nothing (X1, X2); no body for HEAD (X3) *)

Lemma handle_one_request_stage {lib : PyLib} {hooks : Hooks}
    (w : World) (self : Request) (version : string)
    (method : string -> option (Py HState unit)) (Q : HState -> Prop) :
  version <> "HTTP/0.9" ->
  (forall E, hoare buffering self_end_headers (fun _ => head_sent) E) ->
  (forall h, answered self h -> Q h) ->
  (forall m, method (command self) = Some m ->
             hoare (idle_at version) m (fun _ => Q)
               (fun _ => idle_at version)) ->
  hoare (idle_at version)
    (BaseHTTPRequestHandler.handle_one_request w self method)
    (fun _ => Q) (fun _ => idle_at version).
Proof.
  intros Hv Hend HQ Hm. unfold BaseHTTPRequestHandler.handle_one_request.
  destruct (method (command self)) as [m |].
  - apply Hm. reflexivity.
  - eapply hoare_conseq.
    + apply (send_error_stage w self Hend).
    + intros h Hh. exact (idle_buffering Hv Hh).
    + intros ? h Hh. apply HQ. exact Hh.
Qed.

Lemma answered_no_body (self : Request) (h : HState) :
  command self = "HEAD" -> answered self h -> no_body (wfile h).
Proof.
  intros Hcmd [[_ Hshape] Hhead]. unfold no_body.
  destruct (wfile h) as [| x rest] eqn:Hw; [constructor |].
  destruct (Hhead Hcmd) as [_ [lines Hlines]]; [discriminate |].
  rewrite Hw in Hlines. inversion Hlines; subst. repeat constructor.
Qed.

Section FlutterStages.
Context {lib : PyLib}.
Variable w : World.
Variable self : Request.
Variable version : string.
Hypothesis versioned : version <> "HTTP/0.9".

Local Abbreviation idle := (idle_at version).

Lemma FlutterWebHandler_end_headers_stage E :
  hoare buffering FlutterWebHandler.end_headers (fun _ => head_sent) E.
Proof.
  intros s Hs.
  pose proof (FlutterWebHandler_end_headers_run s) as Hrun.
  unfold run in Hrun. rewrite Hrun.
  rewrite (buffering_versioned Hs). destruct Hs as [Hs _].
  simpl. rewrite Hs.
  split; [reflexivity | eexists; reflexivity].
Qed.

Lemma FlutterWebHandler_guess_type_stage (p : string) :
  hoare idle (FlutterWebHandler.guess_type p) (fun _ => idle) (fun _ => idle).
Proof.
  intros s Hs.
  unfold FlutterWebHandler.guess_type, SimpleHTTPRequestHandler.guess_type.
  simpl. unfold py_bind, py_ret, lift.
  destruct (unpack2 (base_guess_type p)) as [[mime_type other] | e];
    [| exact Hs].
  destruct (endswith p ".js"); [exact Hs |].
  destruct (endswith p ".wasm"); [exact Hs |].
  destruct (endswith p ".json"); exact Hs.
Qed.

Lemma answered_served (h : HState) : answered self h -> served self h.
Proof.
  intros Hh. split; [exact (proj1 Hh) |].
  intros Hcmd. exact (answered_no_body Hcmd Hh).
Qed.

Lemma FlutterWebHandler_method_stage (m : Py HState unit) :
  FlutterWebHandler.method w self (command self) = Some m ->
  hoare idle m (fun _ => served self) (fun _ => idle).
Proof.
  unfold FlutterWebHandler.method.
  destruct (String.eqb_spec (command self) "GET") as [Hget | _].
  - intros Hm. inversion Hm; subst m.
    eapply hoare_post.
    + apply do_GET_stage.
      * exact versioned.
      * apply FlutterWebHandler_end_headers_stage.
      * apply FlutterWebHandler_guess_type_stage.
    + intros ? h Hh. split; [exact Hh |].
      intros Hcmd. rewrite Hget in Hcmd. discriminate.
  - destruct (String.eqb (command self) "HEAD"); intros Hm; inversion Hm.
    eapply hoare_post.
    + apply do_HEAD_stage.
      * exact versioned.
      * apply FlutterWebHandler_end_headers_stage.
      * apply FlutterWebHandler_guess_type_stage.
    + intros ? h Hh. apply answered_served. exact Hh.
Qed.

End FlutterStages.

Lemma FlutterWebHandler_handle_stage {lib : PyLib} (version : string)
    (c : socketserver.Connection) :
  version <> "HTTP/0.9" ->
  hoare (idle_at version) (FlutterWebHandler_handle c)
    (fun _ => served (socketserver.conn_request c))
    (fun _ => idle_at version).
Proof.
  intros Hv. unfold FlutterWebHandler_handle.
  apply handle_one_request_stage.
  - exact Hv.
  - apply FlutterWebHandler_end_headers_stage.
  - apply answered_served.
  - apply FlutterWebHandler_method_stage. exact Hv.
Qed.

Lemma fresh_versioned : "HTTP/1.1" <> "HTTP/0.9".
Proof. discriminate. Qed.


Lemma answered_complete (self : Request) (h : HState) :
  answered self h -> complete h.
Proof. intros [Hc _]. exact Hc. Qed.

#[export] Hint Resolve answered_complete : stage.

Section GeolocationStages.
Context {lib : PyLib}.
Variable w : World.
Variable now : datetime.
Variable self : Request.
Variable version : string.
Hypothesis versioned : version <> "HTTP/0.9".

Local Abbreviation idle := (idle_at version).

Lemma GeolocationTestHandler_end_headers_stage E :
  hoare buffering GeolocationTestHandler.end_headers (fun _ => head_sent) E.
Proof.
  intros s Hs.
  pose proof (GeolocationTestHandler_end_headers_run s) as Hrun.
  unfold run in Hrun. rewrite Hrun.
  rewrite (buffering_versioned Hs). destruct Hs as [Hs _].
  simpl. rewrite Hs.
  split; [reflexivity | eexists; reflexivity].
Qed.

Lemma base_guess_type_stage (p : string) :
  hoare idle (SimpleHTTPRequestHandler.guess_type p)
    (fun _ => idle) (fun _ => idle).
Proof. intros s Hs. exact Hs. Qed.

Ltac stage_geo :=
  cbv beta;
  lazymatch goal with
  | |- hoare _ (bind _ _) _ _ =>
      eapply hoare_bind; [stage_geo | intros ?; stage_geo]
  | |- hoare _ (BaseHTTPRequestHandler.send_header _ _) _ _ =>
      by_spec send_header_stage
  | |- hoare _ (BaseHTTPRequestHandler.send_response _ _ _) _ _ =>
      by_spec send_response_stage
  | |- hoare _ GeolocationTestHandler.end_headers _ _ =>
      by_spec GeolocationTestHandler_end_headers_stage
  | |- hoare _ (wfile_write _) _ _ =>
      eapply hoare_conseq;
      [ apply wfile_write_stage
      | intros ? Hs; exact Hs
      | intros ? ? [Hc _]; exact Hc ]
  | |- _ => idtac
  end.

Lemma send_json_response_stage (data : pyobj) :
  hoare idle (GeolocationTestHandler.send_json_response w data)
    (fun _ => complete) (fun _ => idle).
Proof.
  unfold GeolocationTestHandler.send_json_response.
  eapply hoare_bind; [apply py_json_dumps_stage | intros response].
  stage_geo.
Qed.

Lemma send_error_response_stage (message : string) :
  hoare idle (GeolocationTestHandler.send_error_response w message)
    (fun _ => complete) (fun _ => idle).
Proof.
  unfold GeolocationTestHandler.send_error_response.
  eapply hoare_bind; [apply py_json_dumps_stage | intros response].
  stage_geo.
Qed.

Lemma serve_test_interface_stage :
  hoare idle (GeolocationTestHandler.serve_test_interface w self)
    (fun _ => complete) (fun _ => idle).
Proof.
  unfold GeolocationTestHandler.serve_test_interface.
  apply hoare_try_except with (E' := fun _ => idle).
  - eapply hoare_bind.
    + apply hoare_lift with (Q := fun _ => buffering).
      * intros ? s Hs. exact (idle_buffering versioned Hs).
      * intros ? s Hs. exact Hs.
    + intros content. stage_geo.
  - intros e. eapply hoare_conseq.
    + apply (send_error_stage (hooks := GeolocationTestHandler.hooks)
               w self GeolocationTestHandler_end_headers_stage).
    + intros h Hh. exact (idle_buffering versioned Hh).
    + intros ? h Hh. exact (proj1 Hh).
  - intros e s Hs. exact Hs.
Qed.

Lemma GeolocationTestHandler_do_GET_stage :
  hoare idle (GeolocationTestHandler.do_GET w now self)
    (fun _ => complete) (fun _ => idle).
Proof.
  unfold GeolocationTestHandler.do_GET,
    GeolocationTestHandler.serve_mock_weather,
    GeolocationTestHandler.serve_mock_location,
    GeolocationTestHandler.serve_journal_status.
  eapply hoare_bind.
  - apply hoare_or_raise with (Q := fun _ => idle); auto.
  - intros parsed. cbv beta.
    destruct (String.eqb (pr_path parsed) "/" || String.eqb (pr_path parsed) "/test");
      [apply serve_test_interface_stage |].
    destruct (String.eqb (pr_path parsed) "/api/weather");
      [apply send_json_response_stage |].
    destruct (String.eqb (pr_path parsed) "/api/location");
      [apply send_json_response_stage |].
    destruct (String.eqb (pr_path parsed) "/api/journal");
      [apply send_json_response_stage |].
    apply do_GET_stage.
    + exact versioned.
    + apply GeolocationTestHandler_end_headers_stage.
    + apply base_guess_type_stage.
Qed.

Lemma GeolocationTestHandler_do_POST_stage :
  hoare idle (GeolocationTestHandler.do_POST w now self)
    (fun _ => complete) (fun _ => idle).
Proof.
  unfold GeolocationTestHandler.do_POST,
    GeolocationTestHandler.content_length_of.
  destruct (String.eqb (path self) "/api/journal/create");
    [| apply hoare_ret; apply idle_complete].
  eapply hoare_bind with (R := fun _ => idle).
  - destruct (headers_get "Content-Length" (headers self)) as [v |].
    + apply hoare_or_raise; auto.
    + intros s Hs. exact Hs.
  - intros n. eapply hoare_bind with (R := fun _ => idle).
    + apply hoare_or_raise; auto.
    + intros post_data.
      apply hoare_try_except with (E' := fun _ => idle).
      * eapply hoare_bind with (R := fun _ => idle).
        -- apply hoare_or_raise; auto.
        -- intros text. eapply hoare_bind with (R := fun _ => idle).
           ++ apply hoare_lift; auto.
           ++ intros journal_data. apply send_json_response_stage.
      * intros e. apply send_error_response_stage.
      * intros e s Hs. exact Hs.
Qed.

Lemma GeolocationTestHandler_method_stage (m : Py HState unit) :
  GeolocationTestHandler.method w now self (command self) = Some m ->
  hoare idle m (fun _ => served self) (fun _ => idle).
Proof.
  unfold GeolocationTestHandler.method.
  destruct (String.eqb_spec (command self) "GET") as [Hget | _].
  { intros Hm. inversion Hm; subst m.
    eapply hoare_post; [apply GeolocationTestHandler_do_GET_stage |].
    intros ? h Hh. split; [exact Hh |].
    intros Hcmd. rewrite Hget in Hcmd. discriminate. }
  destruct (String.eqb_spec (command self) "POST") as [Hpost | _].
  { intros Hm. inversion Hm; subst m.
    eapply hoare_post; [apply GeolocationTestHandler_do_POST_stage |].
    intros ? h Hh. split; [exact Hh |].
    intros Hcmd. rewrite Hpost in Hcmd. discriminate. }
  destruct (String.eqb (command self) "HEAD"); intros Hm; inversion Hm.
  eapply hoare_post.
  - apply do_HEAD_stage.
    + exact versioned.
    + apply GeolocationTestHandler_end_headers_stage.
    + apply base_guess_type_stage.
  - intros ? h Hh. apply answered_served. exact Hh.
Qed.

End GeolocationStages.

Lemma GeolocationTestHandler_handle_stage {lib : PyLib} (version : string)
    (c : socketserver.Connection) :
  version <> "HTTP/0.9" ->
  hoare (idle_at version) (GeolocationTestHandler_handle c)
    (fun _ => served (socketserver.conn_request c))
    (fun _ => idle_at version).
Proof.
  intros Hv. unfold GeolocationTestHandler_handle.
  apply handle_one_request_stage.
  - exact Hv.
  - apply GeolocationTestHandler_end_headers_stage.
  - apply answered_served.
  - apply GeolocationTestHandler_method_stage. exact Hv.
Qed.

(** ** Every reply carries the fields of [end_headers] (C5, C4) *)

Lemma reply_with_intro (ok : list hline -> Prop) (sent : list wire) :
  every_head ok sent -> reply_shape sent = true -> reply_with ok sent.
Proof.
  intros Hok Hshape.
  destruct sent as [| [lines | data] [| [lines' | data'] [| x rest]]];
    simpl in *; try discriminate; try exact Logic.I.
  - inversion Hok; assumption.
  - inversion Hok; assumption.
Qed.










(** On the mock API server the HEAD of a mock route is a 404 of the
    static files. *)
Example head_of_mock_route :
  map status_lines
    (heads (wfile (snd (run (GeolocationTestHandler_handle (lib := Sample.lib)
                               (Sample.connection Sample.built_world
                                  (Sample.request "HEAD" "/api/weather" [] "")))
                            fresh_handler))))
  = [[(404, "File not found")]].
Proof. reflexivity. Qed.

(** ** Methods without a handler (X4) *)



(** ** The header fields of the JSON replies (X5, X6) *)



(** ** What the static server cannot serve (X7, X8) *)

Lemma send_file_head_raises {lib : PyLib} (w : World) (self : Request)
    (p : string) (s : HState) :
  String.length (base_guess_type p) <> 2%nat ->
  run (SimpleHTTPRequestHandler.send_file_head
         (hooks := FlutterWebHandler.hooks) w self p) s
  = (Raise Exn.ValueError, s).
Proof.
  intros Hlen. unfold run, SimpleHTTPRequestHandler.send_file_head.
  simpl. unfold py_bind at 1.
  pose proof (FlutterWebHandler_guess_type_raises p s Hlen) as Hraise.
  unfold run in Hraise. rewrite Hraise. reflexivity.
Qed.

(** X7.  A GET of the static server for anything that is not a
    directory, a file of the build as well as a path that does not
    exist, ends in the [ValueError] of [guess_type] before the file is
    looked for: neither the file nor a 404 is sent. *)
Theorem static_server_sends_no_file {lib : PyLib} (w : World)
    (self : Request) (s : HState) :
  isdir w (translate_path (path self)) = false ->
  String.length (base_guess_type (translate_path (path self))) <> 2%nat ->
  run (FlutterWebHandler.do_GET w self) s = (Raise Exn.ValueError, s).
Proof.
  intros Hdir Hlen.
  unfold run, FlutterWebHandler.do_GET, SimpleHTTPRequestHandler.do_GET,
    SimpleHTTPRequestHandler.send_head.
  cbv zeta. rewrite Hdir. simpl. unfold py_bind at 1.
  pose proof (@send_file_head_raises lib w self _ s Hlen) as Hraise.
  unfold run in Hraise. rewrite Hraise. reflexivity.
Qed.

Lemma static_server_sends_no_file_witness :
  isdir Sample.built_world
    (translate_path (PyLib := Sample.lib)
       (path (Sample.request "GET" "/no-such-file" [] ""))) = false
  /\ run (FlutterWebHandler.do_GET (lib := Sample.lib) Sample.built_world
            (Sample.request "GET" "/no-such-file" [] "")) fresh_handler
     = (Raise Exn.ValueError, fresh_handler).
Proof.
  split; [reflexivity |].
  apply (static_server_sends_no_file (lib := Sample.lib)).
  - reflexivity.
  - discriminate.
Defined.

(** X8.  A GET of the static server for a directory that has an
    [index.html], the root of the web build in particular, ends in the
    same [ValueError]: the page of the application is never sent. *)
Theorem static_server_sends_no_index {lib : PyLib} (w : World)
    (self : Request) (parts : SplitResult) (s : HState) :
  let pathname := translate_path (path self) in
  isdir w pathname = true ->
  urlsplit (path self) = Some parts ->
  endswith (sp_path parts) "/" = true ->
  isfile w (path_join pathname "index.html") = true ->
  String.length (base_guess_type (path_join pathname "index.html")) <> 2%nat ->
  run (FlutterWebHandler.do_GET w self) s = (Raise Exn.ValueError, s).
Proof.
  intros pathname Hdir Hsplit Hslash Hindex Hlen. subst pathname.
  unfold run, FlutterWebHandler.do_GET, SimpleHTTPRequestHandler.do_GET,
    SimpleHTTPRequestHandler.send_head.
  cbv zeta. rewrite Hdir, Hsplit. simpl. unfold py_bind at 1. simpl.
  unfold py_bind at 1. simpl. rewrite Hslash. simpl. rewrite Hindex.
  pose proof (@send_file_head_raises lib w self _ s Hlen) as Hraise.
  unfold run in Hraise. rewrite Hraise. reflexivity.
Qed.

Lemma static_server_sends_no_index_witness :
  run (FlutterWebHandler.do_GET (lib := Sample.lib) Sample.app_world
         (Sample.request "GET" "/" [] "")) fresh_handler
  = (Raise Exn.ValueError, fresh_handler).
Proof.
  apply (static_server_sends_no_index (lib := Sample.lib) Sample.app_world
           (Sample.request "GET" "/" [] "")
           (parts := {| sp_scheme := ""; sp_netloc := ""; sp_path := "/";
                        sp_query := ""; sp_fragment := "" |}));
    try reflexivity.
  discriminate.
Defined.

(** ** The body of a POST (X9) *)

(** X9.  [do_POST] reads [Content-Length] bytes and no more: what
    follows them on the connection has no part in the reply. *)
Theorem post_ignores_bytes_after_length {lib : PyLib} (w : World)
    (now : datetime) (self : Request) (body extra : list byte)
    (v : string) (s : HState) :
  rfile self = (body ++ extra)%list ->
  headers_get "Content-Length" (headers self) = Some v ->
  int_of_str v = Some (Z.of_nat (length body)) ->
  run (GeolocationTestHandler.do_POST w now self) s
  = run (GeolocationTestHandler.do_POST w now (with_rfile self body)) s.
Proof.
  intros Hrfile Hcl Hint.
  unfold run, GeolocationTestHandler.do_POST,
    GeolocationTestHandler.content_length_of, with_rfile. simpl.
  destruct (String.eqb (path self) "/api/journal/create"); [| reflexivity].
  rewrite Hcl. simpl. unfold py_bind at 1 3. rewrite Hint. simpl.
  rewrite Hrfile.
  replace (rfile_read (Z.of_nat (length body)) (body ++ extra))
    with (rfile_read (Z.of_nat (length body)) body); [reflexivity |].
  rewrite rfile_read_all. unfold rfile_read.
  destruct (Z.ltb_spec (Z.of_nat (length body)) (-1)) as [Hneg | _]; [lia |].
  destruct (Z.eqb_spec (Z.of_nat (length body)) (-1)) as [Hneg | _]; [lia |].
  rewrite Nat2Z.id, firstn_app, Nat.sub_diag, firstn_all. simpl.
  rewrite app_nil_r. reflexivity.
Qed.

Lemma post_ignores_bytes_after_length_witness :
  run (GeolocationTestHandler.do_POST (lib := Sample.lib)
         Sample.built_world 1730000000
         (Sample.request "POST" "/api/journal/create"
            [("Content-Length", "2")] "{}, and more")) fresh_handler
  = run (GeolocationTestHandler.do_POST (lib := Sample.lib)
           Sample.built_world 1730000000
           (with_rfile
              (Sample.request "POST" "/api/journal/create"
                 [("Content-Length", "2")] "{}, and more")
              (list_byte_of_string "{}"))) fresh_handler.
Proof.
  apply (post_ignores_bytes_after_length (lib := Sample.lib)
           Sample.built_world 1730000000
           (Sample.request "POST" "/api/journal/create"
              [("Content-Length", "2")] "{}, and more")
           (list_byte_of_string "{}") (list_byte_of_string ", and more")
           (v := "2"));
    reflexivity.
Defined.

(** ** The mock payloads (X10) *)

Ltac same_unless_clock k :=
  simpl;
  repeat match goal with
         | |- context [String.eqb k ?x] =>
             destruct (String.eqb_spec k x);
             [first [reflexivity | contradiction] |]
         end;
  reflexivity.

(** X10.  The three mock payloads depend on the moment of the request
    through one field only, [timestamp] for the weather and the
    location and [lastEntry] for the journal status: every other key
    has the same value at any two moments. *)
Theorem mock_payloads_vary_only_in_time {lib : PyLib}
    (now later : datetime) (k : string) :
  k <> "timestamp" -> k <> "lastEntry" ->
  dict_get k (items_of (GeolocationTestHandler.weather_data now))
  = dict_get k (items_of (GeolocationTestHandler.weather_data later))
  /\ dict_get k (items_of (GeolocationTestHandler.location_data now))
     = dict_get k (items_of (GeolocationTestHandler.location_data later))
  /\ dict_get k (items_of (GeolocationTestHandler.status now))
     = dict_get k (items_of (GeolocationTestHandler.status later)).
Proof.
  intros Htime Hlast.
  unfold GeolocationTestHandler.weather_data,
    GeolocationTestHandler.location_data, GeolocationTestHandler.status.
  split; [| split]; same_unless_clock k.
Qed.

Lemma mock_payloads_vary_only_in_time_witness :
  dict_get "humidity"
    (items_of (GeolocationTestHandler.weather_data (lib := Sample.lib)
                 1730000000))
  = dict_get "humidity"
      (items_of (GeolocationTestHandler.weather_data (lib := Sample.lib)
                   1730086400))
  /\ dict_get "humidity"
       (items_of (GeolocationTestHandler.location_data (lib := Sample.lib)
                    1730000000))
     = dict_get "humidity"
         (items_of (GeolocationTestHandler.location_data (lib := Sample.lib)
                      1730086400))
  /\ dict_get "humidity"
       (items_of (GeolocationTestHandler.status (lib := Sample.lib)
                    1730000000))
     = dict_get "humidity"
         (items_of (GeolocationTestHandler.status (lib := Sample.lib)
                      1730086400)).
Proof.
  apply (mock_payloads_vary_only_in_time (lib := Sample.lib)
           1730000000 1730086400 (k := "humidity"));
    discriminate.
Defined.

(** ** The static fallback of the mock API server (X11) *)

Lemma first_match_static (p : string) :
  first_match p route_table = StaticFile ->
  (String.eqb p "/" || String.eqb p "/test") = false
  /\ String.eqb p "/api/weather" = false
  /\ String.eqb p "/api/location" = false
  /\ String.eqb p "/api/journal" = false.
Proof.
  unfold route_table. simpl.
  destruct (String.eqb p "/"); [discriminate |].
  destruct (String.eqb p "/test"); [discriminate |].
  destruct (String.eqb p "/api/weather"); [discriminate |].
  destruct (String.eqb p "/api/location"); [discriminate |].
  destruct (String.eqb p "/api/journal"); [discriminate |].
  intros _. repeat split.
Qed.



(** ** No request stops a server (X12) *)


